(** * x402-minter: a shallow embedding of the signing, retry and batch layers

    The development follows [src/x402_minter/x402_minter.py] (class
    [X402Minter]) and [src/main.py] ([run_minter_for_account],
    [run_parallel_mints]).

    Conventions.
    - Python [int] is [Z]; Python [float] is idealised as an exact rational
      ([Q]); Python [str] is [string].
    - JSON-like Python objects are values of [pyval]; a [dict] is an
      association list in insertion order.
    - A Python computation is a function from a [World] to an outcome
      ([Ok v] for a returned value, [Raise e] for an exception) and the
      world it leaves behind.  The world counts what the computation took
      from its environment (HTTP exchanges, random draws, clock readings)
      and records the externally visible events in a trace.
    - The libraries the program calls (key derivation, signing, JSON and
      base64 encoders, the HTTP session) are fields of [Lib] and [Env].
    - Calls to [logger] are not modelled. *)

From Stdlib Require Import ZArith QArith Qminmax Qround Qpower Bool String Ascii List Lia Lqa.
From Stdlib Require Import DecimalString DecimalZ Permutation.
From Equations Require Import Equations.
Import ListNotations.

Set Implicit Arguments.
Set Warnings "-register-all".
Open Scope string_scope.
Open Scope Z_scope.

(* ===================================================================== *)
(** ** Python strings *)
(* ===================================================================== *)

Module PyStr.

(** [str(z)] for an [int]. *)
Definition of_int (z : Z) : string := NilZero.string_of_int (Z.to_int z).

(** [s[:n]] for [n >= 0]. *)
Fixpoint take (n : nat) (s : string) : string :=
  match n, s with
  | O, _ => ""
  | S _, EmptyString => ""
  | S n', String c s' => String c (take n' s')
  end.

(** [s[n:]] for [n >= 0]. *)
Fixpoint drop (n : nat) (s : string) : string :=
  match n, s with
  | O, _ => s
  | S _, EmptyString => ""
  | S n', String _ s' => drop n' s'
  end.

(** [s[-n:]] for [n > 0]: the last [n] characters, the whole string when
    it is shorter. *)
Definition last_chars (n : nat) (s : string) : string :=
  drop (String.length s - n) s.

(** [s.startswith(p)]. *)
Definition startswith (s p : string) : bool := String.prefix p s.

(** [p in s] for two strings. *)
Definition contains (s p : string) : bool :=
  match String.index 0 p s with Some _ => true | None => false end.

(** One hexadecimal digit. *)
Definition hex_digit (d : Z) : ascii :=
  match d with
  | 0 => "0" | 1 => "1" | 2 => "2" | 3 => "3" | 4 => "4" | 5 => "5"
  | 6 => "6" | 7 => "7" | 8 => "8" | 9 => "9" | 10 => "a" | 11 => "b"
  | 12 => "c" | 13 => "d" | 14 => "e" | _ => "f"
  end%char.

(** The [n] low hexadecimal digits of [z], most significant first. *)
Fixpoint hex (n : nat) (z : Z) : string :=
  match n with
  | O => ""
  | S n' => hex n' (z / 16) ++ String (hex_digit (z mod 16)) ""
  end.

End PyStr.

(* ===================================================================== *)
(** ** Python values and exceptions *)
(* ===================================================================== *)

(** JSON-like Python objects. *)
Inductive pyval : Type :=
| PNone
| PBool (b : bool)
| PInt (z : Z)
| PFloat (q : Q)
| PStr (s : string)
| PList (l : list pyval)
| PDict (d : list (string * pyval)).

(** [type(v).__name__]. *)
Definition type_name (v : pyval) : string :=
  match v with
  | PNone => "NoneType"
  | PBool _ => "bool"
  | PInt _ => "int"
  | PFloat _ => "float"
  | PStr _ => "str"
  | PList _ => "list"
  | PDict _ => "dict"
  end.

(** An instance of Python's [Exception]: the name of its class, the names
    of the classes it inherits from below [Exception], and [str(e)].
    [BaseException]s outside [Exception] ([KeyboardInterrupt],
    [SystemExit]) are signals to the interpreter and have no value here. *)
Record exn : Type := MkExn {
  exn_type : string;
  exn_bases : list string;
  exn_str : string
}.

Definition isinstance (e : exn) (cls : string) : bool :=
  String.eqb cls "Exception"
  || String.eqb cls (exn_type e)
  || existsb (String.eqb cls) (exn_bases e).

Definition ValueError (msg : string) : exn := MkExn "ValueError" [] msg.
Definition TypeError (msg : string) : exn := MkExn "TypeError" [] msg.
Definition KeyError (msg : string) : exn := MkExn "KeyError" ["LookupError"] msg.

(** [class X402MintError(RuntimeError)]. *)
Definition X402MintError (msg : string) : exn :=
  MkExn "X402MintError" ["RuntimeError"] msg.

(** The outcome of a Python call. *)
Inductive result (A : Type) : Type :=
| Ok (a : A)
| Raise (e : exn).
Arguments Ok {A} a.
Arguments Raise {A} e.

(** *** Dictionaries and the operators the program applies to values *)

Fixpoint dict_get (k : string) (d : list (string * pyval)) : option pyval :=
  match d with
  | [] => None
  | (k', v) :: d' => if String.eqb k k' then Some v else dict_get k d'
  end.

Definition is_str (v : pyval) : bool :=
  match v with PStr _ => true | _ => false end.

(** [key in container] for a string [key]. *)
Definition py_in (key : string) (container : pyval) : result bool :=
  match container with
  | PDict d => Ok (match dict_get key d with Some _ => true | None => false end)
  | PList l =>
      Ok (existsb (fun v => match v with PStr s => String.eqb s key | _ => false end) l)
  | PStr s => Ok (PyStr.contains s key)
  | v => Raise (TypeError ("argument of type '" ++ type_name v ++ "' is not iterable"))
  end.

(** [container[key]] for a string [key]. *)
Definition py_getitem (container : pyval) (key : string) : result pyval :=
  match container with
  | PDict d =>
      match dict_get key d with
      | Some v => Ok v
      | None => Raise (KeyError ("'" ++ key ++ "'"))
      end
  | PList _ => Raise (TypeError "list indices must be integers or slices, not str")
  | PStr _ => Raise (TypeError "string indices must be integers, not 'str'")
  | v => Raise (TypeError ("'" ++ type_name v ++ "' object is not subscriptable"))
  end.

(* ===================================================================== *)
(** ** The environment and the world *)
(* ===================================================================== *)

(** [requests.Response], as far as the program reads it; [resp_json] is
    what [resp.json()] does. *)
Record Response : Type := MkResponse {
  status_code : Z;
  text : string;
  resp_json : result pyval
}.

(** Deterministic library services. *)
Record Lib : Type := MkLib {
  (** [Account.from_key(private_key).address] *)
  from_key : string -> result string;
  (** [account.sign_message(encode_defunct(text=...)).signature.hex()] *)
  sign_message : string -> string -> result string;
  (** [json.dumps(v, separators=(",", ":"), sort_keys=True)] *)
  json_dumps : pyval -> string;
  (** [base64.b64encode(s.encode()).decode()] *)
  b64encode : string -> string
}.

(** What one account's thread meets: the [k]-th call of the session's
    [get], the [k]-th draw of [secrets], the [k]-th reading of the clock. *)
Record Env : Type := MkEnv {
  server : nat -> result Response;
  entropy : nat -> Z;
  clock : nat -> Q
}.

Inductive Event : Type :=
| EvGet (url : string) (timeout : Q)
| EvSleep (delay : Q)
| EvTokenHex (nbytes : nat)
| EvSign (text : string).

Record World : Type := MkWorld {
  gets : nat;
  draws : nat;
  ticks : nat;
  trace : list Event
}.

Definition world0 : World := MkWorld 0 0 0 [].

(** Computations. *)
Definition Py (A : Type) : Type := World -> result A * World.

Definition ret {A} (a : A) : Py A := fun w => (Ok a, w).
Definition raise {A} (e : exn) : Py A := fun w => (Raise e, w).
Definition bind {A B} (m : Py A) (f : A -> Py B) : Py B :=
  fun w => match m w with
           | (Ok a, w') => f a w'
           | (Raise e, w') => (Raise e, w')
           end.
Definition lift {A} (r : result A) : Py A := fun w => (r, w).

Declare Scope py_scope.
Delimit Scope py_scope with py.
Notation "x <- m ;; k" := (bind m (fun x => k))
  (at level 61, m at next level, right associativity) : py_scope.
Notation "m ;;; k" := (bind m (fun _ => k))
  (at level 61, right associativity) : py_scope.
Open Scope py_scope.

Section Effects.
Variable lib : Lib.
Variable env : Env.

(** [self.s.get(url, timeout=timeout)] on the session made by
    [x402_requests(self.account)].  What that session does on its own with
    a 402 answer happens inside the call: the program sees the response or
    the exception that the call ends with, which is the [server] answer. *)
Definition session_get (url : string) (timeout : Q) : Py Response :=
  fun w =>
    (server env (gets w),
     MkWorld (S (gets w)) (draws w) (ticks w) (trace w ++ [EvGet url timeout])).

(** [secrets.randbelow(n)]. *)
Definition randbelow (n : Z) : Py Z :=
  fun w =>
    (Ok (entropy env (draws w) mod n),
     MkWorld (gets w) (S (draws w)) (ticks w) (trace w)).

(** [secrets.token_hex(nbytes)]. *)
Definition token_hex (nbytes : nat) : Py string :=
  fun w =>
    (Ok (PyStr.hex (2 * nbytes) (entropy env (draws w))),
     MkWorld (gets w) (S (draws w)) (ticks w) (trace w ++ [EvTokenHex nbytes])).

(** [time.time()], and [datetime.now(timezone.utc).timestamp()]. *)
Definition time_time : Py Q :=
  fun w =>
    (Ok (clock env (ticks w)),
     MkWorld (gets w) (draws w) (S (ticks w)) (trace w)).

(** [time.sleep(delay)]. *)
Definition time_sleep (delay : Q) : Py unit :=
  fun w =>
    (Ok tt, MkWorld (gets w) (draws w) (ticks w) (trace w ++ [EvSleep delay])).

(** Signing with the account's key. *)
Definition sign (key text : string) : Py string :=
  fun w =>
    (sign_message lib key text,
     MkWorld (gets w) (draws w) (ticks w) (trace w ++ [EvSign text])).

End Effects.

(* ===================================================================== *)
(** ** class X402Minter *)
(* ===================================================================== *)

Record X402Minter : Type := MkMinter {
  account_key : string;
  account_address : string;
  four_last_address_chars : string;
  timeout : Q;
  network : string;
  scheme : string;
  x402_version : Z
}.

(** Sequencing of pure outcomes. *)
Definition and_then {A B} (r : result A) (f : A -> result B) : result B :=
  match r with
  | Ok a => f a
  | Raise e => Raise e
  end.

(** [try: m  except <classes>: handler]; [handler e = None] when no clause
    matches [e]. *)
Definition try_except {A} (m : Py A) (handler : exn -> option (Py A)) : Py A :=
  fun w =>
    match m w with
    | (Ok a, w') => (Ok a, w')
    | (Raise e, w') =>
        match handler e with
        | Some h => h w'
        | None => (Raise e, w')
        end
    end.

(** [int(x)] for a float: truncation towards zero. *)
Definition int_of_float (x : Q) : Z := Z.quot (Qnum x) (Z.pos (Qden x)).

(** [min(a, b)]. *)
Definition py_min (a b : Q) : Q := if Qlt_le_dec b a then b else a.

(** [round(x, 3)]: to the nearest thousandth, ties to the even one. *)
Definition round3 (x : Q) : Q :=
  let scaled := (x * 1000)%Q in
  let lo := Qfloor scaled in
  let frac := (scaled - inject_Z lo)%Q in
  let n := match (frac ?= 1 # 2)%Q with
           | Lt => lo
           | Gt => lo + 1
           | Eq => if Z.even lo then lo else lo + 1
           end in
  Qred (inject_Z n / 1000)%Q.

(** [range(lo, hi)]. *)
Definition py_range (lo hi : Z) : list Z :=
  map (fun k => lo + Z.of_nat k) (seq 0 (Z.to_nat (hi - lo))).

(** The delay of [_sleep_with_backoff] once the draw [r] is known. *)
Definition backoff_delay (attempt : Z) (base cap : Q) (r : Z) : Q :=
  let delay := py_min cap (base * Qpower 2 (attempt - 1))%Q in
  (delay * (0.6 + 0.8 * inject_Z r / 1000))%Q.

(** [_validate_payment_body]; it touches nothing outside [body]. *)
Definition _validate_payment_body (body : pyval) : result unit :=
  match body with
  | PDict d =>
      let accepts := match dict_get "accepts" d with Some v => v | None => PNone end in
      match accepts with
      | PList (entry :: _) =>
          let require key :=
            and_then (py_in key entry) (fun present =>
              if negb present
              then Raise (ValueError
                     ("Missing required field: body['accepts'][0]['" ++ key ++ "']"))
              else Ok tt) in
          and_then (require "payTo") (fun _ =>
          and_then (require "maxAmountRequired") (fun _ =>
          and_then (py_getitem entry "payTo") (fun to =>
          and_then (py_getitem entry "maxAmountRequired") (fun value =>
          if negb (match to with
                   | PStr s =>
                       PyStr.startswith s "0x"
                       && (Nat.eqb (String.length s) 42 || Nat.eqb (String.length s) 66)
                   | _ => false
                   end)
          then Raise (ValueError "payTo must be a valid Ethereum address string")
          else if negb (is_str value)
          then Raise (ValueError
                 "maxAmountRequired must be a string (e.g., '0x...' or decimal string)")
          else Ok tt))))
      | _ => Raise (ValueError "body['accepts'] must be a non-empty list")
      end
  | _ => Raise (ValueError "body must be a dict")
  end.

(** [body["accepts"][0][key]], as [build_x_payment_header] reads it. *)
Definition accepts0 (body : pyval) (key : string) : result pyval :=
  and_then (py_getitem body "accepts") (fun accepts =>
  match accepts with
  | PList (entry :: _) => py_getitem entry key
  | PList [] => Raise (MkExn "IndexError" ["LookupError"] "list index out of range")
  | v => Raise (TypeError ("'" ++ type_name v ++ "' object is not subscriptable"))
  end).

Section Minter.
Variable lib : Lib.
Variable env : Env.

(** [X402Minter.__init__]. *)
Definition __init__ (private_key : string) (timeout : Q)
    (network scheme : string) (x402_version : Z) : Py X402Minter :=
  address <- lift (from_key lib private_key) ;;
  ret (MkMinter private_key address (PyStr.last_chars 4 address)
         timeout network scheme x402_version).

(** [X402Minter._sleep_with_backoff]. *)
Definition _sleep_with_backoff (attempt : Z) (base cap : Q) : Py unit :=
  r <- randbelow env 1000 ;;
  time_sleep (backoff_delay attempt base cap r).

(** Lines 76-93 of [build_x_payment_header]: validation, the validity
    window, the nonce and the [authorization] dict. *)
Definition build_authorization (self : X402Minter) (body : pyval) : Py pyval :=
  lift (_validate_payment_body body) ;;;
  now <- time_time env ;;
  let valid_after := int_of_float now in
  let valid_before := valid_after + 900 in
  to <- lift (accepts0 body "payTo") ;;
  value <- lift (accepts0 body "maxAmountRequired") ;;
  token <- token_hex env 32 ;;
  let nonce := "0x" ++ token in
  ret (PDict [("from", PStr (account_address self));
              ("nonce", PStr nonce);
              ("to", to);
              ("validAfter", PStr (PyStr.of_int valid_after));
              ("validBefore", PStr (PyStr.of_int valid_before));
              ("value", value)]).

(** [X402Minter.build_x_payment_header]. *)
Definition build_x_payment_header (self : X402Minter) (body : pyval) : Py string :=
  authorization <- build_authorization self body ;;
  let auth_json_canonical := json_dumps lib authorization in
  signed <- sign lib (account_key self) auth_json_canonical ;;
  let signature_hex := "0x" ++ signed in
  let x_payment_payload :=
    PDict [("network", PStr (network self));
           ("payload", PDict [("authorization", authorization);
                              ("signature", PStr signature_hex)]);
           ("scheme", PStr (scheme self));
           ("x402Version", PInt (x402_version self))] in
  ret (b64encode lib (json_dumps lib x_payment_payload)).

(** How one pass through the body of [while True] ends, before the test of
    [attempt >= max_retries]. *)
Inductive Attempt : Type :=
| Returned (resp : Response)
| Raised (e : exn)
| Fallthrough.

(** What the [else] branch of the [try] does with the status code. *)
Definition on_response (resp : Response) : Py Attempt :=
  let code := status_code resp in
  if code =? 200 then
    time_time env ;;; ret (Returned resp)
  else if code =? 402 then ret Fallthrough
  else if existsb (Z.eqb code) [408; 425; 429; 500; 502; 503; 504] then ret Fallthrough
  else if existsb (Z.eqb code) [410; 404] then
    ret (Raised (X402MintError ("Permanent failure: " ++ PyStr.of_int code)))
  else ret Fallthrough.

(** The [try ... except ... else] of one attempt. *)
Definition attempt_once (self : X402Minter) (url : string) : World -> Attempt * World :=
  fun w =>
    match session_get env url (timeout self) w with
    | (Raise e, w1) =>
        if isinstance e "Timeout" then (Fallthrough, w1)
        else if isinstance e "RequestException" || isinstance e "PaymentError"
        then (Fallthrough, w1)
        else (Raised e, w1)
    | (Ok resp, w1) =>
        match on_response resp w1 with
        | (Ok a, w2) => (a, w2)
        | (Raise e, w2) => (Raised e, w2)
        end
    end.

(** The [while True] loop of [_mint_once_with_retry]; [attempt] is the
    counter on entry to the body, before [attempt += 1]. *)
Equations? retry_loop (self : X402Minter) (url : string) (max_retries : Z)
    (base_backoff backoff_cap : Q) (attempt : Z) (w : World)
    : result Response * World
    by wf (Z.to_nat (max_retries - attempt)) lt :=
retry_loop self url max_retries base_backoff backoff_cap attempt w
  with attempt_once self url w := {
  | (Returned resp, w1) := (Ok resp, w1)
  | (Raised e, w1) := (Raise e, w1)
  | (Fallthrough, w1) with Z_ge_lt_dec (attempt + 1) max_retries := {
    | left _ :=
        (Raise (X402MintError
           ("Mint failed after " ++ PyStr.of_int max_retries ++ " attempts")), w1)
    | right _ with _sleep_with_backoff (attempt + 1) base_backoff backoff_cap w1 := {
      | (Ok _, w2) :=
          retry_loop self url max_retries base_backoff backoff_cap (attempt + 1) w2
      | (Raise e, w2) := (Raise e, w2) } } }.
Proof. lia. Qed.

(** [X402Minter._mint_once_with_retry]. *)
Definition _mint_once_with_retry (self : X402Minter) (url : string)
    (max_retries : Z) (base_backoff backoff_cap : Q) : Py Response :=
  time_time env ;;;
  retry_loop self url max_retries base_backoff backoff_cap 0.

End Minter.

Section Session.
Variable lib : Lib.
Variable env : Env.

(** Default arguments of [_mint_once_with_retry]. *)
Definition default_max_retries : Z := 12.
Definition default_base_backoff : Q := 0.4.
Definition default_backoff_cap : Q := 6.

(** One iteration of the [for] loop of [mint]: the request, then the
    decoding of its body. *)
Definition mint_unit (self : X402Minter) (url : string) : Py pyval :=
  resp <- try_except
            (_mint_once_with_retry env self url
               default_max_retries default_base_backoff default_backoff_cap)
            (fun e => if isinstance e "X402MintError" then Some (raise e) else None) ;;
  try_except (lift (resp_json resp))
    (fun e => if isinstance e "ValueError"
              then Some (ret (PDict [("raw_text", PStr (text resp))]))
              else None).

(** The [for i in range(1, amount + 1)] loop with its accumulator. *)
Fixpoint mint_loop (self : X402Minter) (url : string) (units : list Z)
    (results : list pyval) : Py (list pyval) :=
  match units with
  | [] => ret results
  | _ :: units' =>
      data <- mint_unit self url ;;
      mint_loop self url units' (results ++ [data])
  end.

(** [X402Minter.mint]. *)
Definition mint (self : X402Minter) (url : string) (amount : Z) : Py (list pyval) :=
  if amount <=? 0 then raise (ValueError "amount must be > 0")
  else mint_loop self url (py_range 1 (amount + 1)) [].

(** The dict both [except] clauses of [run_minter_for_account] return. *)
Definition failure_record (suffix : string) (e : exn) : pyval :=
  PDict [("private_key_suffix", PStr suffix);
         ("ok", PBool false);
         ("error", PStr (exn_str e));
         ("error_type", PStr (exn_type e))].

(** The body of the [try] of [run_minter_for_account]. *)
Definition account_session (suffix private_key url : string) (amount : Z)
    (network scheme : string) (x402_version : Z) : Py pyval :=
  minter <- __init__ lib private_key 10 network scheme x402_version ;;
  t0 <- time_time env ;;
  results <- mint minter url amount ;;
  t1 <- time_time env ;;
  let elapsed := (t1 - t0)%Q in
  ret (PDict [("private_key_suffix", PStr suffix);
              ("ok", PBool true);
              ("elapsed_sec", PFloat (round3 elapsed));
              ("results", PList results)]).

(** [run_minter_for_account] of [main.py]. *)
Definition run_minter_for_account (private_key url : string) (amount : Z)
    (network scheme : string) (x402_version : Z) : Py pyval :=
  let suffix := PyStr.last_chars 6 private_key in
  try_except
    (account_session suffix private_key url amount network scheme x402_version)
    (fun e =>
       if isinstance e "X402MintError" || isinstance e "ValueError"
       then Some (ret (failure_record suffix e))
       else if isinstance e "Exception"
       then Some (ret (failure_record suffix e))
       else None).

End Session.

(* ===================================================================== *)
(** ** The batch: [run_parallel_mints] *)
(* ===================================================================== *)

(** A submitted task: its identity and what [fut.result()] gives once the
    task is done. *)
Record Future : Type := MkFuture {
  fut_id : nat;
  fut_result : result pyval
}.

(** The thread pool.  [as_completed] yields the futures it is given in the
    order in which their tasks finish. *)
Record Pool : Type := MkPool {
  as_completed : list Future -> list Future
}.

Section Batch.
Variable lib : Lib.
(** [ThreadPoolExecutor(max_workers=..., thread_name_prefix="x402")]. *)
Variable ThreadPoolExecutor : Z -> result Pool.
(** The environment met by the task submitted at each position. *)
Variable envs : nat -> Env.

(** The submission loop: [future_map[fut] = pk[-6:]], one task per key,
    each task run by its own thread from a fresh world. *)
Fixpoint submit_all (position : nat) (private_keys : list string) (url : string)
    (amount : Z) (network scheme : string) (x402_version : Z)
    : list (Future * string) :=
  match private_keys with
  | [] => []
  | pk :: rest =>
      let outcome :=
        fst (run_minter_for_account lib (envs position) pk url amount
               network scheme x402_version world0) in
      (MkFuture position outcome, PyStr.last_chars 6 pk)
        :: submit_all (S position) rest url amount network scheme x402_version
  end.

(** [future_map[fut]]. *)
Fixpoint future_map_get (fut : Future) (future_map : list (Future * string)) : string :=
  match future_map with
  | [] => ""
  | (f, suffix) :: rest =>
      if Nat.eqb (fut_id f) (fut_id fut) then suffix else future_map_get fut rest
  end.

(** The body of [for fut in as_completed(future_map)]. *)
Definition collect_one (future_map : list (Future * string)) (fut : Future)
    : result pyval :=
  let suffix := future_map_get fut future_map in
  match fut_result fut with
  | Ok res => Ok res
  | Raise e =>
      if isinstance e "Exception"
      then Ok (failure_record suffix e)
      else Raise e
  end.

Fixpoint collect (future_map : list (Future * string)) (done : list Future)
    (results : list pyval) : result (list pyval) :=
  match done with
  | [] => Ok results
  | fut :: rest =>
      and_then (collect_one future_map fut) (fun res =>
      collect future_map rest (results ++ [res]))
  end.

(** [run_parallel_mints] of [main.py]. *)
Definition run_parallel_mints (private_keys : list string) (url : string)
    (amount_per_account : Z) (max_workers : Z) (network scheme : string)
    (x402_version : Z) : result (list pyval) :=
  and_then (ThreadPoolExecutor max_workers) (fun ex =>
  let future_map :=
    submit_all 0 private_keys url amount_per_account network scheme x402_version in
  collect future_map (as_completed ex (map fst future_map)) []).

End Batch.

(** *** The summaries: [ok_count] and the lists of the script *)

(** [bool(v)]. *)
Definition py_truthy (v : pyval) : bool :=
  match v with
  | PNone => false
  | PBool b => b
  | PInt z => negb (z =? 0)
  | PFloat q => negb (Qeq_bool q 0)
  | PStr s => negb (String.eqb s "")
  | PList l => match l with [] => false | _ => true end
  | PDict d => match d with [] => false | _ => true end
  end.

(** [r.get(key)]. *)
Definition py_get (r : pyval) (key : string) : result pyval :=
  match r with
  | PDict d => Ok (match dict_get key d with Some v => v | None => PNone end)
  | v => Raise (MkExn "AttributeError" []
                  ("'" ++ type_name v ++ "' object has no attribute 'get'"))
  end.

(** The test [r.get("ok")] of the summaries. *)
Definition get_ok (r : pyval) : result bool :=
  and_then (py_get r "ok") (fun v => Ok (py_truthy v)).

(** [sum(1 for r in results if r.get("ok"))]. *)
Fixpoint ok_count (results : list pyval) : result Z :=
  match results with
  | [] => Ok 0
  | r :: rest =>
      and_then (get_ok r) (fun ok =>
      and_then (ok_count rest) (fun n => Ok (if ok then 1 + n else n)))
  end.

(** [[r for r in all_results if r.get("ok")]] for [want = true], and
    [[r for r in all_results if not r.get("ok")]] for [want = false]. *)
Fixpoint select_by_ok (want : bool) (all_results : list pyval) : result (list pyval) :=
  match all_results with
  | [] => Ok []
  | r :: rest =>
      and_then (get_ok r) (fun ok =>
      and_then (select_by_ok want rest) (fun kept =>
      Ok (if Bool.eqb ok want then r :: kept else kept)))
  end.

(** The arguments of the line logged for a failed account:
    [f["private_key_suffix"], f.get("error"), f.get("error_type")]. *)
Definition failed_line (f : pyval) : result (pyval * pyval * pyval) :=
  and_then (py_getitem f "private_key_suffix") (fun suffix =>
  and_then (py_get f "error") (fun error =>
  and_then (py_get f "error_type") (fun error_type =>
  Ok (suffix, error, error_type)))).

Fixpoint failed_lines (failed : list pyval) : result (list (pyval * pyval * pyval)) :=
  match failed with
  | [] => Ok []
  | f :: rest =>
      and_then (failed_line f) (fun line =>
      and_then (failed_lines rest) (fun lines => Ok (line :: lines)))
  end.

(** The end of the script: the two lists, their sizes and the lines for
    the failed accounts. *)
Definition final_summary (all_results : list pyval)
    : result (nat * nat * list (pyval * pyval * pyval)) :=
  and_then (select_by_ok true all_results) (fun success =>
  and_then (select_by_ok false all_results) (fun failed =>
  and_then (failed_lines failed) (fun lines =>
  Ok (length success, length failed, lines)))).

(* ===================================================================== *)
(** ** Notions used by the statements *)
(* ===================================================================== *)

(** [int(s)] for a decimal string. *)
Definition int_of_str (s : string) : option Z :=
  option_map Z.of_int (NilZero.int_of_string s).


(** The field [key] of [entry] when [entry] is a mapping that has it. *)
Definition entry_field (entry : pyval) (key : string) : option pyval :=
  match entry with
  | PDict e => dict_get key e
  | _ => None
  end.

(** [payTo] looks like an address: the prefix ["0x"] and 42 or 66
    characters. *)
Definition address_like (s : string) : bool :=
  PyStr.startswith s "0x"
  && (Nat.eqb (String.length s) 42 || Nat.eqb (String.length s) 66).

(** Validity as the specification words it: a mapping with a non-empty
    [accepts] list whose first entry has a [payTo] that looks like an
    address and a [maxAmountRequired] that is a string. *)
Definition spec_valid_body (body : pyval) : bool :=
  match body with
  | PDict d =>
      match dict_get "accepts" d with
      | Some (PList (entry :: _)) =>
          match entry_field entry "payTo", entry_field entry "maxAmountRequired" with
          | Some (PStr to), Some (PStr _) => address_like to
          | _, _ => false
          end
      | _ => false
      end
  | _ => false
  end.

Definition is_mapping (v : pyval) : bool :=
  match v with PDict _ => true | _ => false end.

(** The first entry of [accepts], when validation gets that far. *)
Definition first_entry (body : pyval) : option pyval :=
  match body with
  | PDict d =>
      match dict_get "accepts" d with
      | Some (PList (entry :: _)) => Some entry
      | _ => None
      end
  | _ => None
  end.

(** The authorization built from a valid body, and the world after it:
    one clock reading and one draw, nothing else. *)
Definition authorization_at (env : Env) (self : X402Minter) (to value : string)
    (w : World) : list (string * pyval) :=
  [("from", PStr (account_address self));
   ("nonce", PStr ("0x" ++ PyStr.hex 64 (entropy env (draws w))));
   ("to", PStr to);
   ("validAfter", PStr (PyStr.of_int (int_of_float (clock env (ticks w)))));
   ("validBefore", PStr (PyStr.of_int (int_of_float (clock env (ticks w)) + 900)));
   ("value", PStr value)].

(** What an answer of the session does to the loop: the classification of
    section 4.2 read off [attempt_once]. *)
Definition verdict (answer : result Response) : Attempt :=
  match answer with
  | Raise e =>
      if isinstance e "Timeout" || isinstance e "RequestException"
         || isinstance e "PaymentError"
      then Fallthrough
      else Raised e
  | Ok resp =>
      let code := status_code resp in
      if code =? 200 then Returned resp
      else if (code =? 404) || (code =? 410)
      then Raised (X402MintError ("Permanent failure: " ++ PyStr.of_int code))
      else Fallthrough
  end.

(** The error of an exhausted budget. *)
Definition exhausted (max_retries : Z) : exn :=
  X402MintError ("Mint failed after " ++ PyStr.of_int max_retries ++ " attempts").

(** The error of a permanent failure. *)
Definition permanent (code : Z) : exn :=
  X402MintError ("Permanent failure: " ++ PyStr.of_int code).

(** Events that belong to the building of a payment header. *)
Definition header_event (ev : Event) : bool :=
  match ev with
  | EvTokenHex _ | EvSign _ => true
  | _ => false
  end.

Definition get_event (ev : Event) : bool :=
  match ev with
  | EvGet _ _ => true
  | _ => false
  end.

(** What [fut.result()] gives for a task that returned. *)
Definition future_record (fut : Future) : pyval :=
  match fut_result fut with
  | Ok record => record
  | Raise _ => PNone
  end.

(** Sleeps on a trace, and the time they add up to. *)
Definition sleep_event (ev : Event) : bool :=
  match ev with
  | EvSleep _ => true
  | _ => false
  end.

Fixpoint total_sleep (evs : list Event) : Q :=
  match evs with
  | [] => 0
  | EvSleep d :: rest => d + total_sleep rest
  | _ :: rest => total_sleep rest
  end%Q.

(** An exception of the transport, which the loop absorbs. *)
Definition transport_error (e : exn) : bool :=
  isinstance e "Timeout" || isinstance e "RequestException"
  || isinstance e "PaymentError".

(** A hexadecimal digit in lower case. *)
Definition hex_char (c : ascii) : bool :=
  existsb (Ascii.eqb c) (list_ascii_of_string "0123456789abcdef").

Fixpoint all_chars (p : ascii -> bool) (s : string) : bool :=
  match s with
  | EmptyString => true
  | String c s' => p c && all_chars p s'
  end.

(** A record as the batch reports them: a dict with a boolean [ok] and a
    string [private_key_suffix]. *)
Definition is_account_record (r : pyval) : bool :=
  match r with
  | PDict d =>
      match dict_get "ok" d, dict_get "private_key_suffix" d with
      | Some (PBool _), Some (PStr _) => true
      | _, _ => false
      end
  | _ => false
  end.

(** What a run may put on the trace: requests to [url] with the minter's
    timeout, and sleeps of a positive time below [1.4 * cap]. *)
Definition loop_event (self : X402Minter) (url : string) (cap : Q) (ev : Event) : Prop :=
  match ev with
  | EvGet u t => u = url /\ t = timeout self
  | EvSleep d => (0 < d /\ d < 1.4 * cap)%Q
  | _ => False
  end.

Section Records.
Variable lib : Lib.
Variable envs : nat -> Env.
Variables (url : string) (amount : Z) (network scheme : string) (x402_version : Z).

(** The record of the account submitted at [position]. *)
Definition account_record (position : nat) (private_key : string) : pyval :=
  match fst (run_minter_for_account lib (envs position) private_key url amount
               network scheme x402_version world0) with
  | Ok record => record
  | Raise e => failure_record (PyStr.last_chars 6 private_key) e
  end.

Fixpoint account_records (position : nat) (private_keys : list string) : list pyval :=
  match private_keys with
  | [] => []
  | pk :: rest => account_record position pk :: account_records (S position) rest
  end.

End Records.

(* ===================================================================== *)
(** ** Sample data for concrete runs *)
(* ===================================================================== *)

Definition sample_body : pyval :=
  PDict [("accepts",
          PList [PDict [("payTo", PStr "0x0123456789abcdef0123456789abcdef01234567");
                        ("maxAmountRequired", PStr "1000")]])].

Definition sample_lib : Lib :=
  MkLib (fun key => Ok ("0xA11CE0000000000000000000000000000000" ++ PyStr.last_chars 4 key))
        (fun key text => Ok "5197")
        (fun v => type_name v)
        (fun s => s).

Definition sample_minter : X402Minter :=
  MkMinter "0xkey001" "0xA11CE0000000000000000000000000000000y001" "y001"
           10 "base" "exact" 1.

Definition quiet_env (answers : list (result Response)) (last : result Response) : Env :=
  MkEnv (fun k => nth k answers last) (fun k => Z.of_nat (7 * k)) (fun k => 1700000000 # 1).

Definition mint_url : string := "https://api.ping.observer/mint".

Definition reply (code : Z) : Response :=
  MkResponse code "{}" (Ok (PDict [("status", PInt code)])).

(** A session whose first answers are the given status codes and which
    answers 503 ever after. *)
Definition scripted (codes : list Z) : Env :=
  quiet_env (map (fun code => Ok (reply code)) codes) (Ok (reply 503)).

Definition run_once (codes : list Z) (max_retries : Z) : result Response * World :=
  _mint_once_with_retry (scripted codes) sample_minter mint_url max_retries
    default_base_backoff default_backoff_cap world0.

Definition one_done : list pyval :=
  match fst (mint_loop (scripted [200; 404]) sample_minter mint_url
               (py_range 1 2) [] world0) with
  | Ok done => done
  | Raise _ => []
  end.

(** An exception that does not come from the transport, and a session
    that answers 402 and then fails with it. *)
Definition crash : exn := MkExn "RuntimeError" [] "session is closed".

Definition crashing_env : Env :=
  quiet_env [Ok (reply 402); Raise crash] (Ok (reply 503)).

(** A 200 answer whose body is not JSON: [resp.json()] raises the
    [JSONDecodeError] of [requests], a [ValueError]. *)
Definition html_reply : Response :=
  MkResponse 200 "<html>minted</html>"
    (Raise (MkExn "JSONDecodeError" ["InvalidJSONError"; "RequestException"; "ValueError"]
              "Expecting value: line 1 column 1 (char 0)")).

Definition html_env : Env := quiet_env [Ok html_reply] (Ok (reply 503)).

(** A pool whose tasks finish in the reverse of the submission order; the
    executor refuses a pool size that is not positive. *)
Definition reversing_pool : Pool := MkPool (@rev Future).

Definition sample_executor (max_workers : Z) : result Pool :=
  if max_workers <=? 0
  then Raise (ValueError "max_workers must be greater than 0")
  else Ok reversing_pool.

(** The first account is served, the second one meets a 404. *)
Definition sample_envs (position : nat) : Env :=
  match position with
  | O => scripted [200]
  | _ => scripted [404]
  end.


(* ===================================================================== *)
(** ** Facts about strings and values *)
(* ===================================================================== *)

Module PyStrFacts.
Import PyStr.

Lemma take_drop (n : nat) (s : string) : take n s ++ drop n s = s.
Proof.
  revert s; induction n as [|n IH]; intros [|c s]; simpl; try reflexivity.
  now rewrite IH.
Qed.

Lemma length_drop (n : nat) (s : string) :
  String.length (drop n s) = (String.length s - n)%nat.
Proof.
  revert s; induction n as [|n IH]; intros [|c s]; simpl; auto.
Qed.

Lemma length_last_chars (n : nat) (s : string) :
  String.length (last_chars n s) = Nat.min n (String.length s).
Proof. unfold last_chars. rewrite length_drop. lia. Qed.

End PyStrFacts.

Lemma int_of_str_of_int (z : Z) : int_of_str (PyStr.of_int z) = Some z.
Proof.
  unfold int_of_str, PyStr.of_int.
  rewrite NilZero.isi.
  - simpl. now rewrite DecimalZ.of_to.
  - destruct z; simpl; try discriminate.
    intro H. injection H as H. now apply DecimalPos.Unsigned.to_uint_nonnil in H.
  - destruct z; simpl; try discriminate.
    intro H. injection H as H. now apply DecimalPos.Unsigned.to_uint_nonnil in H.
Qed.

Lemma isinstance_Exception (e : exn) : isinstance e "Exception" = true.
Proof. reflexivity. Qed.

Lemma last_chars_suffix (n : nat) (s : string) :
  exists front, s = front ++ PyStr.last_chars n s.
Proof.
  exists (PyStr.take (String.length s - n) s).
  unfold PyStr.last_chars. now rewrite PyStrFacts.take_drop.
Qed.

(* ===================================================================== *)
(** ** Validation of the payment body *)
(* ===================================================================== *)

Lemma validate_ok_inv (body : pyval) :
  _validate_payment_body body = Ok tt ->
  exists d e rest to value,
    body = PDict d
    /\ dict_get "accepts" d = Some (PList (PDict e :: rest))
    /\ dict_get "payTo" e = Some (PStr to)
    /\ dict_get "maxAmountRequired" e = Some (PStr value)
    /\ address_like to = true.
Proof.
  destruct body as [| | | | | |d]; try discriminate. cbn [_validate_payment_body].
  destruct (dict_get "accepts" d) as [[| | | | |[|entry rest]|]|] eqn:Ha;
    try discriminate.
  destruct entry as [| | | | | |e]; try discriminate.
  - cbn. destruct (PyStr.contains s "payTo"); try discriminate.
    cbn. destruct (PyStr.contains s "maxAmountRequired"); discriminate.
  - cbn. destruct (existsb _ l); try discriminate.
    cbn. destruct (existsb _ l); discriminate.
  - cbn. destruct (dict_get "payTo" e) as [to|] eqn:Hto; try discriminate.
    cbn. destruct (dict_get "maxAmountRequired" e) as [value|] eqn:Hv;
      try discriminate.
    cbn. intros H. exists d, e, rest.
    destruct to as [| | | |to| |]; try discriminate.
    fold (address_like to) in H.
    destruct (address_like to) eqn:Haddr; try discriminate.
    destruct value as [| | | |value| |]; try discriminate.
    now exists to, value.
Qed.

(** The code accepts exactly the bodies the specification calls valid. *)
Lemma validate_ok_iff (body : pyval) :
  _validate_payment_body body = Ok tt <-> spec_valid_body body = true.
Proof.
  split.
  - intros H. apply validate_ok_inv in H.
    destruct H as (d & e & rest & to & value & -> & Ha & Hto & Hv & Haddr).
    cbn. rewrite Ha. cbn. now rewrite Hto, Hv.
  - destruct body as [| | | | | |d]; try discriminate. cbn.
    destruct (dict_get "accepts" d) as [[| | | | |[|entry rest]|]|];
      try discriminate.
    destruct entry as [| | | | | |e]; try discriminate. cbn.
    destruct (dict_get "payTo" e) as [[| | | |to| |]|]; try discriminate.
    destruct (dict_get "maxAmountRequired" e) as [[| | | |value| |]|];
      try discriminate.
    cbn. fold (address_like to). now intros ->.
Qed.

(** An invalid body is refused with a [ValueError] whenever the first
    entry of [accepts], if validation reaches it, is a mapping. *)
Lemma validate_invalid_mapping_entry (body : pyval) :
  spec_valid_body body = false ->
  (forall entry, first_entry body = Some entry -> is_mapping entry = true) ->
  exists msg, _validate_payment_body body = Raise (ValueError msg).
Proof.
  intros Hinv Hmap.
  destruct body as [| | | | | |d]; try (eexists; reflexivity).
  cbn in *.
  destruct (dict_get "accepts" d) as [[| | | | |[|entry rest]|]|];
    try (eexists; reflexivity).
  specialize (Hmap entry eq_refl).
  destruct entry as [| | | | | |e]; try discriminate. cbn in *.
  destruct (dict_get "payTo" e) as [to|]; [|eexists; reflexivity]. cbn.
  destruct (dict_get "maxAmountRequired" e) as [value|]; [|eexists; reflexivity].
  cbn. destruct to as [| | | |to| |]; try (eexists; reflexivity).
  fold (address_like to). fold (address_like to) in Hinv.
  destruct (address_like to); [|eexists; reflexivity]. cbn.
  destruct value as [| | | |value| |]; try (eexists; reflexivity).
  discriminate.
Qed.

(** A refused body costs nothing: no clock reading, no draw, no signature. *)
Lemma build_refused_untouched (lib : Lib) (env : Env) (self : X402Minter)
    (body : pyval) (e : exn) (w : World) :
  _validate_payment_body body = Raise e ->
  build_x_payment_header lib env self body w = (Raise e, w).
Proof.
  intros H. unfold build_x_payment_header, build_authorization, bind, lift.
  now rewrite H.
Qed.

(** C7 (defect).  A body whose first [accepts] entry is not a mapping is
    invalid, and [_validate_payment_body] has no type test for the entry
    as it has for [body], [accepts], [payTo] and [maxAmountRequired]: on
    [{"accepts": [None]}] the membership test raises a [TypeError], which
    is not a [ValueError], and [build_x_payment_header] propagates it. *)
Theorem C7_non_mapping_entry_raises_TypeError :
  let body := PDict [("accepts", PList [PNone])] in
  let e := TypeError "argument of type 'NoneType' is not iterable" in
  spec_valid_body body = false
  /\ _validate_payment_body body = Raise e
  /\ isinstance e "ValueError" = false
  /\ forall lib env self w,
       build_x_payment_header lib env self body w = (Raise e, w).
Proof.
  cbv zeta. split; [reflexivity|]. split; [reflexivity|]. split; [reflexivity|].
  intros. now apply build_refused_untouched.
Qed.

(* ===================================================================== *)
(** ** The validity window *)
(* ===================================================================== *)

Lemma build_authorization_valid (env : Env) (self : X402Minter)
    (d e : list (string * pyval)) (rest : list pyval) (to value : string)
    (w : World) :
  _validate_payment_body (PDict d) = Ok tt ->
  dict_get "accepts" d = Some (PList (PDict e :: rest)) ->
  dict_get "payTo" e = Some (PStr to) ->
  dict_get "maxAmountRequired" e = Some (PStr value) ->
  build_authorization env self (PDict d) w =
    (Ok (PDict (authorization_at env self to value w)),
     MkWorld (gets w) (S (draws w)) (S (ticks w)) (trace w ++ [EvTokenHex 32])).
Proof.
  intros Hok Ha Hto Hv.
  unfold build_authorization, bind, lift. rewrite Hok.
  unfold time_time, accepts0, and_then, py_getitem. rewrite Ha, Hto, Hv.
  reflexivity.
Qed.

(** C9.  For every valid body and every reading of the clock, the
    authorization that [build_x_payment_header] signs stores two decimal
    strings [validAfter] and [validBefore] whose integers differ by
    exactly 900, [validAfter] being the clock truncated to seconds; a
    header that is returned is the encoding of an envelope around that
    very authorization. *)
Theorem C9_validity_window_is_900 (lib : Lib) (env : Env) (self : X402Minter)
    (body : pyval) (w : World) :
  _validate_payment_body body = Ok tt ->
  exists a w1 after before,
    build_authorization env self body w = (Ok (PDict a), w1)
    /\ dict_get "validAfter" a = Some (PStr (PyStr.of_int after))
    /\ dict_get "validBefore" a = Some (PStr (PyStr.of_int before))
    /\ int_of_str (PyStr.of_int after) = Some after
    /\ int_of_str (PyStr.of_int before) = Some before
    /\ after = int_of_float (clock env (ticks w))
    /\ before - after = 900
    /\ forall header w2,
         build_x_payment_header lib env self body w = (Ok header, w2) ->
         exists signature,
           header =
             b64encode lib (json_dumps lib
               (PDict [("network", PStr (network self));
                       ("payload", PDict [("authorization", PDict a);
                                          ("signature", PStr signature)]);
                       ("scheme", PStr (scheme self));
                       ("x402Version", PInt (x402_version self))])).
Proof.
  intros Hok. pose proof (validate_ok_inv _ Hok) as
    (d & e & rest & to & value & -> & Ha & Hto & Hv & _).
  pose proof (build_authorization_valid env self _ w Hok Ha Hto Hv) as Hb.
  exists (authorization_at env self to value w). eexists.
  exists (int_of_float (clock env (ticks w))).
  exists (int_of_float (clock env (ticks w)) + 900).
  split; [exact Hb|].
  split; [reflexivity|]. split; [reflexivity|].
  split; [apply int_of_str_of_int|]. split; [apply int_of_str_of_int|].
  split; [reflexivity|]. split; [lia|].
  intros header w2. unfold build_x_payment_header, bind. rewrite Hb.
  unfold sign. destruct (sign_message lib _ _) as [sg|]; [|discriminate].
  unfold ret. intros [= <- _]. now eexists.
Qed.

Lemma C9_validity_window_is_900_witness :
  exists a w1 after before,
    build_authorization (quiet_env [] (Raise (ValueError ""))) sample_minter
      sample_body world0 = (Ok (PDict a), w1)
    /\ dict_get "validAfter" a = Some (PStr (PyStr.of_int after))
    /\ dict_get "validBefore" a = Some (PStr (PyStr.of_int before))
    /\ before - after = 900.
Proof.
  destruct (@C9_validity_window_is_900 sample_lib
              (quiet_env [] (Raise (ValueError ""))) sample_minter sample_body
              world0 eq_refl)
    as (a & w1 & after & before & H1 & H2 & H3 & _ & _ & _ & H4 & _).
  exists a, w1, after, before. repeat split; assumption.
Defined.

(* ===================================================================== *)
(** ** Backoff *)
(* ===================================================================== *)

(** The jitter factor of a draw below 1000 lies in [[0.6, 1.4)]. *)
Lemma jitter_range (r : Z) :
  0 <= r < 1000 ->
  (0.6 <= 0.6 + 0.8 * inject_Z r / 1000 /\ 0.6 + 0.8 * inject_Z r / 1000 < 1.4)%Q.
Proof.
  intros Hr.
  assert (0 <= inject_Z r)%Q
    by (change (inject_Z 0 <= inject_Z r)%Q; rewrite <- Zle_Qle; lia).
  assert (inject_Z r < 1000)%Q
    by (change (inject_Z r < inject_Z 1000)%Q; rewrite <- Zlt_Qlt; lia).
  unfold Qdiv. change (/ 1000)%Q with (1 # 1000)%Q.
  split; lra.
Qed.

Lemma py_min_cases (a b : Q) :
  (py_min a b = a /\ (a <= b)%Q) \/ (py_min a b = b /\ (b < a)%Q).
Proof. unfold py_min. destruct (Qlt_le_dec b a); auto. Qed.

(** The capped exponential term is positive. *)
Lemma capped_term_pos (attempt : Z) (base cap : Q) :
  (0 < base)%Q -> (0 < cap)%Q ->
  (0 < py_min cap (base * Qpower 2 (attempt - 1)))%Q.
Proof.
  intros Hb Hc.
  assert (0 < Qpower 2 (attempt - 1))%Q by (apply Qpower_0_lt; reflexivity).
  assert (0 < base * Qpower 2 (attempt - 1))%Q by nra.
  destruct (py_min_cases cap (base * Qpower 2 (attempt - 1))) as [[-> _]|[-> _]];
    assumption.
Qed.




(* ===================================================================== *)
(** ** The retry loop *)
(* ===================================================================== *)

Section RetryFacts.
Variable env : Env.

Lemma on_response_verdict (resp : Response) (w : World) :
  exists w1,
    on_response env resp w = (Ok (verdict (Ok resp)), w1)
    /\ gets w1 = gets w /\ draws w1 = draws w /\ trace w1 = trace w.
Proof.
  unfold on_response, verdict.
  remember (status_code resp) as code eqn:Hcode. clear Hcode.
  destruct (Z.eqb_spec code 200) as [->|H200].
  { eexists. split; [reflexivity|]. now cbn. }
  destruct (Z.eqb_spec code 402) as [->|H402].
  { eexists. split; [reflexivity|]. now cbn. }
  cbn [existsb].
  repeat match goal with
  | |- context [Z.eqb code ?k] =>
      destruct (Z.eqb_spec code k) as [->|?];
      [eexists; split; [reflexivity|now cbn]|]
  end.
  eexists. split; [reflexivity|]. now cbn.
Qed.

Lemma attempt_once_verdict (self : X402Minter) (url : string) (w : World) :
  exists w1,
    attempt_once env self url w = (verdict (server env (gets w)), w1)
    /\ gets w1 = S (gets w)
    /\ draws w1 = draws w
    /\ trace w1 = (trace w ++ [EvGet url (timeout self)])%list.
Proof.
  unfold attempt_once, session_get.
  destruct (server env (gets w)) as [resp|e].
  - destruct (on_response_verdict resp
                (MkWorld (S (gets w)) (draws w) (ticks w)
                   (trace w ++ [EvGet url (timeout self)])))
      as (w1 & -> & Hg & Hd & Ht).
    exists w1. now repeat split.
  - cbn [verdict]. eexists.
    destruct (isinstance e "Timeout"); cbn [orb];
      [split; [reflexivity|now cbn]|].
    destruct (isinstance e "RequestException" || isinstance e "PaymentError");
      split; try reflexivity; now cbn.
Qed.

Lemma sleep_with_backoff_run (attempt : Z) (base cap : Q) (w : World) :
  exists delay w2,
    _sleep_with_backoff env attempt base cap w = (Ok tt, w2)
    /\ gets w2 = gets w
    /\ trace w2 = (trace w ++ [EvSleep delay])%list.
Proof. do 2 eexists. split; [reflexivity|]. now cbn. Qed.

(** A run of the loop: [n] attempts fall through, attempt [n + 1] decides.
    The loop sends the second and later requests only while the counter
    is below [max_retries]; what it adds to the trace is one [EvGet] per
    attempt and the sleeps between them. *)
Lemma retry_loop_run (self : X402Minter) (url : string) (max_retries : Z)
    (base cap : Q) (attempt : Z) (w : World) (r : result Response) (w' : World) :
  retry_loop env self url max_retries base cap attempt w = (r, w') ->
  exists n : nat,
    gets w' = (gets w + S n)%nat
    /\ (forall i, (i < n)%nat -> verdict (server env (gets w + i)) = Fallthrough)
    /\ (n = O \/ attempt + Z.of_nat n < max_retries)
    /\ match verdict (server env (gets w + n)) with
       | Returned resp => r = Ok resp
       | Raised e => r = Raise e
       | Fallthrough =>
           r = Raise (exhausted max_retries)
           /\ max_retries <= attempt + Z.of_nat (S n)
       end
    /\ exists evs,
         trace w' = (trace w ++ evs)%list
         /\ filter header_event evs = []
         /\ length (filter get_event evs) = S n.
Proof.
  funelim (retry_loop env self url max_retries base cap attempt w);
    match goal with
    | Hq : attempt_once _ _ _ _ = _ |- _ =>
        destruct (attempt_once_verdict self url w) as (w1' & Hv & Hg & _ & Ht);
        rewrite Hq in Hv
    end;
    injection Hv as Hverd <-.
  - intros [= <- <-]. exists O. rewrite Nat.add_0_r, <- Hverd.
    split; [lia|]. split; [lia|]. split; [now left|]. split; [reflexivity|].
    exists [EvGet url (timeout self)]. now rewrite Ht.
  - intros [= <- <-]. exists O. rewrite Nat.add_0_r, <- Hverd.
    split; [lia|]. split; [lia|]. split; [now left|]. split; [reflexivity|].
    exists [EvGet url (timeout self)]. now rewrite Ht.
  - intros [= <- <-]. exists O. rewrite Nat.add_0_r, <- Hverd.
    split; [lia|]. split; [lia|]. split; [now left|].
    split; [split; [reflexivity|lia]|].
    exists [EvGet url (timeout self)]. now rewrite Ht.
  - intros Hrun. apply H in Hrun.
    destruct Hrun as (n & Hgets & Hfall & Hbound & Hlast & evs & Htr & Hhdr & Hcnt).
    cbn [gets trace] in *.
    exists (S n). split; [lia|]. split; [|split; [|split]].
    + intros [|i] Hi.
      * now rewrite Nat.add_0_r.
      * replace (gets w + S i)%nat with (gets w1 + i)%nat by lia.
        apply Hfall. lia.
    + right. lia.
    + replace (gets w + S n)%nat with (gets w1 + n)%nat by lia.
      destruct (verdict (server env (gets w1 + n))); try assumption.
      destruct Hlast as [-> Hle]. split; [reflexivity|lia].
    + eexists (EvGet url (timeout self) :: EvSleep _ :: evs).
      split; [|split].
      * rewrite Htr, Ht, <- !app_assoc. reflexivity.
      * exact Hhdr.
      * cbn. now rewrite Hcnt.
  - discriminate.
Qed.

End RetryFacts.

Section RetryClaims.
Variable env : Env.

(** The same for [_mint_once_with_retry], whose loop starts at 0 after one
    reading of the clock. *)
Lemma mint_once_run (self : X402Minter) (url : string) (max_retries : Z)
    (base cap : Q) (w : World) (r : result Response) (w' : World) :
  _mint_once_with_retry env self url max_retries base cap w = (r, w') ->
  exists n : nat,
    gets w' = (gets w + S n)%nat
    /\ (forall i, (i < n)%nat -> verdict (server env (gets w + i)) = Fallthrough)
    /\ (n = O \/ Z.of_nat n < max_retries)
    /\ match verdict (server env (gets w + n)) with
       | Returned resp => r = Ok resp
       | Raised e => r = Raise e
       | Fallthrough =>
           r = Raise (exhausted max_retries) /\ max_retries <= Z.of_nat (S n)
       end
    /\ exists evs,
         trace w' = (trace w ++ evs)%list
         /\ filter header_event evs = []
         /\ length (filter get_event evs) = S n.
Proof.
  unfold _mint_once_with_retry, bind, time_time. intros Hrun.
  apply retry_loop_run in Hrun. cbn [gets trace] in Hrun.
  destruct Hrun as (n & H1 & H2 & H3 & H4 & H5).
  exists n. repeat split; try assumption.
Qed.

Lemma verdict_permanent (resp : Response) :
  status_code resp = 404 \/ status_code resp = 410 ->
  verdict (Ok resp) = Raised (permanent (status_code resp)).
Proof. intros [H|H]; unfold verdict; rewrite H; reflexivity. Qed.

Lemma verdict_success (resp : Response) :
  status_code resp = 200 -> verdict (Ok resp) = Returned resp.
Proof. intros H; unfold verdict; now rewrite H. Qed.


(** C4.  Whatever [max_retries] is, when a request sent by a run of
    [_mint_once_with_retry] is answered with status 404 or 410, the run
    ends with the permanent-failure error for that status and that request
    is the last one it sent. *)
Theorem C4_permanent_status_ends_the_loop (self : X402Minter) (url : string)
    (max_retries : Z) (base cap : Q) (w : World) (r : result Response)
    (w' : World) (k : nat) (resp : Response) :
  _mint_once_with_retry env self url max_retries base cap w = (r, w') ->
  (gets w <= k < gets w')%nat ->
  server env k = Ok resp ->
  status_code resp = 404 \/ status_code resp = 410 ->
  r = Raise (permanent (status_code resp)) /\ gets w' = S k.
Proof.
  intros Hrun Hk Hans Hcode.
  destruct (mint_once_run _ _ _ _ _ _ Hrun) as (n & Hg & Hfall & _ & Hlast & _).
  pose proof (verdict_permanent _ Hcode) as Hv.
  assert (k = gets w + n)%nat as ->.
  { destruct (Nat.eq_dec k (gets w + n)) as [|Hne]; [assumption|].
    specialize (Hfall (k - gets w)%nat ltac:(lia)).
    replace (gets w + (k - gets w))%nat with k in Hfall by lia.
    rewrite Hans, Hv in Hfall. discriminate. }
  rewrite Hans, Hv in Hlast. split; [assumption|lia].
Qed.



End RetryClaims.

(** *** Concrete runs *)

Lemma C4_permanent_status_ends_the_loop_witness :
  fst (run_once [402; 404; 200] 12) = Raise (permanent 404)
  /\ gets (snd (run_once [402; 404; 200] 12)) = 2%nat.
Proof.
  apply (@C4_permanent_status_ends_the_loop (scripted [402; 404; 200])
           sample_minter mint_url 12 default_base_backoff default_backoff_cap
           world0 _ _ 1%nat (reply 404) (surjective_pairing _)).
  - vm_compute. lia.
  - reflexivity.
  - left. reflexivity.
Defined.




(* ===================================================================== *)
(** ** Nonces and the requests of the loop *)
(* ===================================================================== *)

Lemma hex_digit_inj (x y : Z) :
  0 <= x < 16 -> 0 <= y < 16 -> PyStr.hex_digit x = PyStr.hex_digit y -> x = y.
Proof.
  intros Hx Hy.
  assert (Ix : In x [0; 1; 2; 3; 4; 5; 6; 7; 8; 9; 10; 11; 12; 13; 14; 15])
    by (cbn; lia).
  assert (Iy : In y [0; 1; 2; 3; 4; 5; 6; 7; 8; 9; 10; 11; 12; 13; 14; 15])
    by (cbn; lia).
  cbn in Ix, Iy.
  repeat (destruct Ix as [<-|Ix]; [|]); try contradiction;
    repeat (destruct Iy as [<-|Iy]; [|]); try contradiction;
    cbn; intros H; try reflexivity; discriminate H.
Qed.

Lemma string_snoc_inj (s1 s2 : string) (c1 c2 : ascii) :
  s1 ++ String c1 "" = s2 ++ String c2 "" -> s1 = s2 /\ c1 = c2.
Proof.
  revert s2; induction s1 as [|a s1 IH]; intros [|b s2]; cbn; intros H.
  - now injection H.
  - injection H as _ H. destruct s2; discriminate.
  - injection H as _ H. destruct s1; discriminate.
  - injection H as -> H. apply IH in H. destruct H as [-> ->]. now split.
Qed.

(** Two draws with the same [n] hexadecimal digits agree modulo [16^n]. *)
Lemma hex_inj (n : nat) (a b : Z) :
  PyStr.hex n a = PyStr.hex n b -> a mod 16 ^ Z.of_nat n = b mod 16 ^ Z.of_nat n.
Proof.
  revert a b; induction n as [|n IH]; intros a b H.
  - now rewrite !Z.mod_1_r.
  - cbn [PyStr.hex] in H. apply string_snoc_inj in H. destruct H as [Hhi Hlo].
    apply IH in Hhi.
    apply hex_digit_inj in Hlo; try (apply Z.mod_pos_bound; lia).
    rewrite Nat2Z.inj_succ, Z.pow_succ_r by lia.
    rewrite !Z.rem_mul_r by lia. now rewrite Hhi, Hlo.
Qed.

Lemma nonce_inv (t1 t2 : string) :
  @Ok pyval (PStr ("0x" ++ t1)) = Ok (PStr ("0x" ++ t2)) -> t1 = t2.
Proof. cbn. now intros [= ->]. Qed.

(** C2, as the code has it.  A run of [_mint_once_with_retry] sends one GET
    per attempt through the session and builds no payment header itself:
    it draws no nonce and signs nothing ([build_x_payment_header] is not
    called by the loop; the header is left to the x402 session).  Where
    [build_x_payment_header] is called, each call takes its nonce from a
    new draw of the random source, so two consecutive calls yield
    different nonces whenever the two draws differ modulo [2^256]. *)
Theorem C2_loop_builds_no_header_and_nonces_are_fresh_draws (env : Env)
    (self : X402Minter) (url : string) (max_retries : Z) (base cap : Q)
    (w : World) :
  (forall r w',
     _mint_once_with_retry env self url max_retries base cap w = (r, w') ->
     exists evs,
       trace w' = (trace w ++ evs)%list
       /\ filter header_event evs = []
       /\ length (filter get_event evs) = (gets w' - gets w)%nat)
  /\ (forall body a1 w1 a2 w2,
        build_authorization env self body w = (Ok a1, w1) ->
        build_authorization env self body w1 = (Ok a2, w2) ->
        exists n1 n2,
          n1 = entropy env (draws w)
          /\ n2 = entropy env (S (draws w))
          /\ py_getitem a1 "nonce" = Ok (PStr ("0x" ++ PyStr.hex 64 n1))
          /\ py_getitem a2 "nonce" = Ok (PStr ("0x" ++ PyStr.hex 64 n2))
          /\ (n1 mod 2 ^ 256 <> n2 mod 2 ^ 256 ->
              py_getitem a1 "nonce" <> py_getitem a2 "nonce")).
Proof.
  split.
  - intros r w' Hrun.
    destruct (mint_once_run _ _ _ _ _ _ _ Hrun) as (n & Hg & _ & _ & _ & evs & Ht & Hh & Hc).
    exists evs. repeat split; try assumption. lia.
  - intros body a1 w1 a2 w2 H1 H2.
    destruct (_validate_payment_body body) as [[]|e] eqn:Hok.
    2:{ unfold build_authorization, bind, lift in H1. rewrite Hok in H1.
        discriminate. }
    pose proof (validate_ok_inv _ Hok) as
      (d & e & rest & to & value & -> & Ha & Hto & Hv & _).
    rewrite (build_authorization_valid env self _ w Hok Ha Hto Hv) in H1.
    injection H1 as <- <-.
    rewrite (build_authorization_valid env self _ _ Hok Ha Hto Hv) in H2.
    injection H2 as <- _.
    exists (entropy env (draws w)), (entropy env (S (draws w))).
    split; [reflexivity|]. split; [reflexivity|].
    split; [reflexivity|]. split; [reflexivity|].
    intros Hne Heq. apply Hne.
    apply nonce_inv in Heq. apply (hex_inj 64) in Heq. exact Heq.
Qed.

Lemma C2_loop_builds_no_header_and_nonces_are_fresh_draws_witness :
  (exists evs,
     trace (snd (run_once [402; 200] 12)) = evs
     /\ filter header_event evs = []
     /\ length (filter get_event evs) = 2%nat)
  /\ exists a1 w1 a2 w2,
       build_authorization (scripted [402; 200]) sample_minter sample_body world0
         = (Ok a1, w1)
       /\ build_authorization (scripted [402; 200]) sample_minter sample_body w1
         = (Ok a2, w2)
       /\ py_getitem a1 "nonce" <> py_getitem a2 "nonce".
Proof.
  destruct (@C2_loop_builds_no_header_and_nonces_are_fresh_draws
              (scripted [402; 200]) sample_minter mint_url 12
              default_base_backoff default_backoff_cap world0) as [Hloop Hnonce].
  split.
  - destruct (Hloop _ _ (surjective_pairing _)) as (evs & Ht & Hh & Hc).
    exists evs. split; [exact Ht|]. split; [exact Hh|]. exact Hc.
  - pose (p1 := build_authorization (scripted [402; 200]) sample_minter
                  sample_body world0).
    pose (a1 := match fst p1 with Ok a => a | Raise _ => PNone end).
    pose (p2 := build_authorization (scripted [402; 200]) sample_minter
                  sample_body (snd p1)).
    pose (a2 := match fst p2 with Ok a => a | Raise _ => PNone end).
    assert (H1 : build_authorization (scripted [402; 200]) sample_minter
                   sample_body world0 = (Ok a1, snd p1))
      by (vm_compute; reflexivity).
    assert (H2 : build_authorization (scripted [402; 200]) sample_minter
                   sample_body (snd p1) = (Ok a2, snd p2))
      by (vm_compute; reflexivity).
    destruct (Hnonce sample_body a1 (snd p1) a2 (snd p2) H1 H2)
      as (n1 & n2 & -> & -> & _ & _ & Hdiff).
    exists a1, (snd p1), a2, (snd p2).
    split; [exact H1|]. split; [exact H2|].
    apply Hdiff. vm_compute. discriminate.
Defined.

(** C2, as stated, fails: in a run of two attempts (402, then 200) the
    session's [get] is called twice and nothing on the trace belongs to
    the building of a header: no nonce is drawn and nothing is signed. *)
Lemma C2_attempts_without_header_build :
  fst (run_once [402; 200] 12) = Ok (reply 200)
  /\ filter get_event (trace (snd (run_once [402; 200] 12)))
     = [EvGet mint_url 10; EvGet mint_url 10]
  /\ filter header_event (trace (snd (run_once [402; 200] 12))) = []
  /\ draws (snd (run_once [402; 200] 12)) = 1%nat.
Proof. vm_compute. repeat split. Qed.

(* ===================================================================== *)
(** ** The mint session *)
(* ===================================================================== *)

Section SessionFacts.
Variable lib : Lib.
Variable env : Env.

Lemma mint_unit_raise (self : X402Minter) (url : string) (w w1 : World) (e : exn) :
  _mint_once_with_retry env self url
    default_max_retries default_base_backoff default_backoff_cap w = (Raise e, w1) ->
  mint_unit env self url w = (Raise e, w1).
Proof.
  intros H. unfold mint_unit, bind, try_except. rewrite H.
  destruct (isinstance e "X402MintError"); reflexivity.
Qed.

Lemma mint_loop_app (self : X402Minter) (url : string) (us vs : list Z)
    (acc : list pyval) (w : World) :
  mint_loop env self url (us ++ vs) acc w =
    match mint_loop env self url us acc w with
    | (Ok done, w1) => mint_loop env self url vs done w1
    | (Raise e, w1) => (Raise e, w1)
    end.
Proof.
  revert acc w; induction us as [|u us IH]; intros acc w; [reflexivity|].
  cbn [app mint_loop]. unfold bind.
  destruct (mint_unit env self url w) as [[data|e] w1]; [apply IH|reflexivity].
Qed.

Lemma mint_loop_length (self : X402Minter) (url : string) (us : list Z)
    (acc done : list pyval) (w w1 : World) :
  mint_loop env self url us acc w = (Ok done, w1) ->
  length done = (length acc + length us)%nat.
Proof.
  revert acc w; induction us as [|u us IH]; intros acc w; cbn [mint_loop].
  - intros [= <- _]. cbn. lia.
  - unfold bind. destruct (mint_unit env self url w) as [[data|e] w2];
      [|discriminate].
    intros H. apply IH in H. rewrite H, length_app. cbn. lia.
Qed.

Lemma py_range_length (lo hi : Z) : length (py_range lo hi) = Z.to_nat (hi - lo).
Proof. unfold py_range. now rewrite length_map, length_seq. Qed.

Lemma map_seq_offset {A} (f : nat -> A) (a b : nat) :
  map f (seq a b) = map (fun k => f (a + k)%nat) (seq 0 b).
Proof.
  revert a f; induction b as [|b IH]; intros a f; [reflexivity|].
  cbn [seq map]. rewrite Nat.add_0_r. f_equal.
  rewrite (IH (S a) f), (IH 1%nat (fun k => f (a + k)%nat)).
  apply map_ext. intros k. f_equal. lia.
Qed.

Lemma py_range_split (lo mid hi : Z) :
  lo <= mid <= hi -> py_range lo hi = (py_range lo mid ++ py_range mid hi)%list.
Proof.
  intros H. unfold py_range.
  replace (Z.to_nat (hi - lo)) with (Z.to_nat (mid - lo) + Z.to_nat (hi - mid))%nat
    by lia.
  rewrite seq_app, map_app. f_equal. cbn [Nat.add].
  rewrite map_seq_offset. apply map_ext. intros k. lia.
Qed.

Lemma run_minter_for_account_cases (private_key url : string) (amount : Z)
    (network scheme : string) (x402_version : Z) (w : World) :
  run_minter_for_account lib env private_key url amount network scheme
      x402_version w =
    match account_session lib env (PyStr.last_chars 6 private_key) private_key
            url amount network scheme x402_version w with
    | (Ok record, w') => (Ok record, w')
    | (Raise e, w') => (Ok (failure_record (PyStr.last_chars 6 private_key) e), w')
    end.
Proof.
  unfold run_minter_for_account, try_except.
  destruct (account_session _ _ _ _ _ _ _ _ _ w) as [[record|e] w'];
    [reflexivity|].
  rewrite isinstance_Exception.
  destruct (isinstance e "X402MintError" || isinstance e "ValueError");
    reflexivity.
Qed.

Lemma account_session_ok_inv (suffix private_key url : string) (amount : Z)
    (network scheme : string) (x402_version : Z) (w w' : World) (record : pyval) :
  account_session lib env suffix private_key url amount network scheme
      x402_version w = (Ok record, w') ->
  exists elapsed results,
    record = PDict [("private_key_suffix", PStr suffix);
                    ("ok", PBool true);
                    ("elapsed_sec", PFloat elapsed);
                    ("results", PList results)].
Proof.
  unfold account_session, bind, lift, time_time, ret.
  destruct (__init__ lib private_key 10 network scheme x402_version w)
    as [[minter|e] w0]; [|discriminate].
  match goal with |- context [mint env minter url amount ?w0] =>
    destruct (mint env minter url amount w0) as [[results|e] w1] end;
    [|discriminate].
  intros [= <- _]. now do 2 eexists.
Qed.

End SessionFacts.

(** C1, as the code has it.  When the first [j] units of a session of
    [amount > j] units complete and the request of unit [j + 1] raises
    (a permanent failure or an exhausted budget), [mint] raises that very
    error in the world the failed request left, so no later unit is
    attempted; the [j] completed results stay in the local list of [mint]
    and are not handed to the caller: the account's record is the failure
    record, which has no ["results"] field. *)
Theorem C1_failed_unit_aborts_session_without_results (lib : Lib) (env : Env)
    (self : X402Minter) (url : string) (amount : Z) (j : nat)
    (w w1 w2 : World) (done : list pyval) (e : exn) :
  Z.of_nat j < amount ->
  mint_loop env self url (py_range 1 (Z.of_nat j + 1)) [] w = (Ok done, w1) ->
  _mint_once_with_retry env self url
    default_max_retries default_base_backoff default_backoff_cap w1 = (Raise e, w2) ->
  length done = j
  /\ mint env self url amount w = (Raise e, w2)
  /\ forall private_key network scheme x402_version w0 w00,
       __init__ lib private_key 10 network scheme x402_version w0 = (Ok self, w00) ->
       w = snd (time_time env w00) ->
       run_minter_for_account lib env private_key url amount network scheme
           x402_version w0
         = (Ok (failure_record (PyStr.last_chars 6 private_key) e), w2)
       /\ py_getitem (failure_record (PyStr.last_chars 6 private_key) e) "results"
          = Raise (KeyError "'results'").
Proof.
  intros Hj Hdone Hfail.
  assert (Hmint : mint env self url amount w = (Raise e, w2)).
  { unfold mint. destruct (Z.leb_spec amount 0) as [|_]; [lia|].
    rewrite (@py_range_split 1 (Z.of_nat j + 1) (amount + 1)) by lia.
    rewrite mint_loop_app, Hdone.
    pose proof (py_range_length (Z.of_nat j + 1) (amount + 1)) as Hlen.
    destruct (py_range (Z.of_nat j + 1) (amount + 1)) as [|u us];
      [cbn in Hlen; lia|].
    cbn [mint_loop]. unfold bind. now erewrite mint_unit_raise by exact Hfail. }
  split; [|split; [exact Hmint|]].
  - apply mint_loop_length in Hdone. rewrite Hdone, py_range_length. cbn. lia.
  - intros private_key network0 scheme0 version w0 w00 Hinit ->.
    split; [|reflexivity].
    rewrite run_minter_for_account_cases.
    unfold account_session, bind. rewrite Hinit.
    change (time_time env w00)
      with (@Ok Q (clock env (ticks w00)), snd (time_time env w00)).
    cbv iota. now rewrite Hmint.
Qed.

Lemma C1_failed_unit_aborts_session_without_results_witness :
  length one_done = 1%nat
  /\ fst (mint (scripted [200; 404]) sample_minter mint_url 3 world0)
     = Raise (permanent 404)
  /\ gets (snd (mint (scripted [200; 404]) sample_minter mint_url 3 world0)) = 2%nat.
Proof.
  pose (w1 := snd (mint_loop (scripted [200; 404]) sample_minter mint_url
                     (py_range 1 2) [] world0)).
  pose (w2 := snd (_mint_once_with_retry (scripted [200; 404]) sample_minter
                     mint_url default_max_retries default_base_backoff
                     default_backoff_cap w1)).
  destruct (@C1_failed_unit_aborts_session_without_results sample_lib
              (scripted [200; 404]) sample_minter mint_url 3 1%nat world0 w1 w2
              one_done (permanent 404))
    as (Hlen & Hmint & _).
  - vm_compute. reflexivity.
  - vm_compute. reflexivity.
  - vm_compute. reflexivity.
  - split; [exact Hlen|]. rewrite Hmint. split; reflexivity.
Defined.

(** C1, as stated, fails: with three units asked for, the first answered
    200 and the second 404, the first unit has produced its result, yet
    [mint] raises and the account's record carries the error alone: the
    caller receives no result of a completed unit. *)
Lemma C1_completed_units_are_not_returned :
  fst (mint_loop (scripted [200; 404]) sample_minter mint_url (py_range 1 2) []
         world0)
    = Ok [PDict [("status", PInt 200)]]
  /\ fst (mint (scripted [200; 404]) sample_minter mint_url 3 world0)
     = Raise (X402MintError "Permanent failure: 404")
  /\ gets (snd (mint (scripted [200; 404]) sample_minter mint_url 3 world0)) = 2%nat
  /\ fst (run_minter_for_account sample_lib (scripted [200; 404]) "0xkey001"
            mint_url 3 "base" "exact" 1 world0)
     = Ok (PDict [("private_key_suffix", PStr "key001");
                  ("ok", PBool false);
                  ("error", PStr "Permanent failure: 404");
                  ("error_type", PStr "X402MintError")]).
Proof. vm_compute. repeat split. Qed.

(* ===================================================================== *)
(** ** Account records and the batch *)
(* ===================================================================== *)

(** C10.  Whatever the key derivation, the session and the answers of the
    server are, the record that [run_minter_for_account] returns, on the
    success branch ([ok] true) and on the failure branch ([ok] false),
    has as [private_key_suffix] the last six characters of the private-key
    string (all of it when it has fewer than six); the derived address has
    no part in it. *)
Theorem C10_suffix_is_taken_from_private_key (lib : Lib) (env : Env)
    (private_key url : string) (amount : Z) (network scheme : string)
    (x402_version : Z) (w : World) :
  exists fields w',
    run_minter_for_account lib env private_key url amount network scheme
        x402_version w = (Ok (PDict fields), w')
    /\ dict_get "private_key_suffix" fields
       = Some (PStr (PyStr.last_chars 6 private_key))
    /\ (dict_get "ok" fields = Some (PBool true)
        \/ dict_get "ok" fields = Some (PBool false))
    /\ (exists front, private_key = front ++ PyStr.last_chars 6 private_key)
    /\ String.length (PyStr.last_chars 6 private_key)
       = Nat.min 6 (String.length private_key).
Proof.
  rewrite run_minter_for_account_cases.
  destruct (account_session lib env (PyStr.last_chars 6 private_key) private_key
              url amount network scheme x402_version w)
    as [[record|e] w'] eqn:Hs.
  - apply account_session_ok_inv in Hs. destruct Hs as (elapsed & results & ->).
    do 2 eexists. split; [reflexivity|]. split; [reflexivity|].
    split; [now left|]. split; [apply last_chars_suffix|].
    apply PyStrFacts.length_last_chars.
  - do 2 eexists. split; [reflexivity|]. split; [reflexivity|].
    split; [now right|]. split; [apply last_chars_suffix|].
    apply PyStrFacts.length_last_chars.
Qed.

(** The suffix of the record against the suffix of the address, on a
    key whose derived address ends differently. *)
Example suffix_is_not_the_address_suffix :
  from_key sample_lib "0xkey001" = Ok "0xA11CE0000000000000000000000000000000y001"
  /\ PyStr.last_chars 6 "0xA11CE0000000000000000000000000000000y001" = "00y001"
  /\ exists fields,
       fst (run_minter_for_account sample_lib (scripted [200]) "0xkey001" mint_url
              1 "base" "exact" 1 world0) = Ok (PDict fields)
       /\ dict_get "private_key_suffix" fields = Some (PStr "key001")
       /\ dict_get "ok" fields = Some (PBool true).
Proof.
  split; [reflexivity|]. split; [reflexivity|].
  eexists. split; [vm_compute; reflexivity|]. split; reflexivity.
Qed.

Section BatchFacts.
Variable lib : Lib.
Variable ThreadPoolExecutor : Z -> result Pool.
Variable envs : nat -> Env.
Variables (url : string) (amount : Z) (network scheme : string) (x402_version : Z).

Local Abbreviation record_at :=
  (account_record lib envs url amount network scheme x402_version).
Local Abbreviation records_from :=
  (account_records lib envs url amount network scheme x402_version).

Lemma run_minter_for_account_returns (env : Env) (private_key : string) (w : World) :
  exists record w',
    run_minter_for_account lib env private_key url amount network scheme
      x402_version w = (Ok record, w').
Proof.
  rewrite run_minter_for_account_cases.
  destruct (account_session _ _ _ _ _ _ _ _ _ w) as [[record|e] w'];
    now do 2 eexists.
Qed.

Lemma submitted_futures_done (position : nat) (private_keys : list string) :
  Forall (fun fut => exists record, fut_result fut = Ok record)
    (map fst (submit_all lib envs position private_keys url amount network
                scheme x402_version))
  /\ map future_record
       (map fst (submit_all lib envs position private_keys url amount network
                   scheme x402_version))
     = records_from position private_keys.
Proof.
  revert position; induction private_keys as [|pk rest IH]; intros position.
  - split; [constructor|reflexivity].
  - destruct (IH (S position)) as [Hall Hrec]. cbn [submit_all map fst]. split.
    + constructor; [|exact Hall]. cbn [fut_result].
      destruct (run_minter_for_account_returns (envs position) pk world0)
        as (record & w' & ->). now exists record.
    + cbn [account_records]. rewrite <- Hrec. f_equal.
      unfold future_record, account_record. cbn [fut_result].
      destruct (run_minter_for_account_returns (envs position) pk world0)
        as (record & w' & ->). reflexivity.
Qed.

Lemma collect_done (future_map : list (Future * string)) (done : list Future)
    (acc : list pyval) :
  Forall (fun fut => exists record, fut_result fut = Ok record) done ->
  collect future_map done acc = Ok (acc ++ map future_record done)%list.
Proof.
  intros Hall. revert acc. induction Hall as [|fut done [record Hr] _ IH]; intros acc.
  - cbn. now rewrite app_nil_r.
  - cbn [collect map]. unfold collect_one, future_record at 1.
    rewrite Hr. cbn [and_then]. rewrite IH, <- app_assoc. reflexivity.
Qed.


Lemma account_records_length (position : nat) (private_keys : list string) :
  length (records_from position private_keys) = length private_keys.
Proof.
  revert position; induction private_keys as [|k rest IH]; intros position;
    cbn; auto.
Qed.


End BatchFacts.

(** *** A concrete batch *)


(* ===================================================================== *)
(** ** More on the retry loop *)
(* ===================================================================== *)

Lemma verdict_returned_inv (answer : result Response) (resp : Response) :
  verdict answer = Returned resp -> answer = Ok resp /\ status_code resp = 200.
Proof.
  destruct answer as [r|e]; cbn.
  - destruct (Z.eqb_spec (status_code r) 200) as [H|_].
    + now intros [= ->].
    + destruct ((status_code r =? 404) || (status_code r =? 410)); discriminate.
  - destruct (_ || _); discriminate.
Qed.


Lemma verdict_unexpected (e : exn) :
  transport_error e = false -> verdict (Raise e) = Raised e.
Proof. unfold transport_error. cbn. now intros ->. Qed.

Section RetryMore.
Variable env : Env.

(** X1.  [_mint_once_with_retry] returns a response only when that
    response has status 200, and the response returned is the answer to
    the last request of the run. *)
Theorem X1_loop_returns_only_status_200 (self : X402Minter) (url : string)
    (max_retries : Z) (base cap : Q) (w w' : World) (resp : Response) :
  _mint_once_with_retry env self url max_retries base cap w = (Ok resp, w') ->
  status_code resp = 200
  /\ (gets w < gets w')%nat
  /\ server env (gets w' - 1) = Ok resp.
Proof.
  intros Hrun.
  destruct (mint_once_run _ _ _ _ _ _ _ Hrun) as (n & Hg & _ & _ & Hlast & _).
  destruct (verdict (server env (gets w + n))) as [resp0|e|] eqn:Hv.
  - injection Hlast as <-. apply verdict_returned_inv in Hv.
    destruct Hv as [Hans Hcode].
    replace (gets w' - 1)%nat with (gets w + n)%nat by lia.
    split; [assumption|]. split; [lia|assumption].
  - discriminate.
  - destruct Hlast; discriminate.
Qed.


(** X3.  An exception of the session that is neither a [Timeout], nor a
    [RequestException], nor a [PaymentError] is not retried: the run
    raises it as it is and sends no further request. *)
Theorem X3_unexpected_exception_is_not_retried (self : X402Minter) (url : string)
    (max_retries : Z) (base cap : Q) (w w' : World) (r : result Response)
    (k : nat) (e : exn) :
  _mint_once_with_retry env self url max_retries base cap w = (r, w') ->
  (gets w <= k < gets w')%nat ->
  server env k = Raise e ->
  transport_error e = false ->
  r = Raise e /\ gets w' = S k.
Proof.
  intros Hrun Hk Hans He.
  destruct (mint_once_run _ _ _ _ _ _ _ Hrun) as (n & Hg & Hfall & _ & Hlast & _).
  pose proof (verdict_unexpected _ He) as Hv.
  assert (k = gets w + n)%nat as ->.
  { destruct (Nat.eq_dec k (gets w + n)) as [|Hne]; [assumption|].
    specialize (Hfall (k - gets w)%nat ltac:(lia)).
    replace (gets w + (k - gets w))%nat with k in Hfall by lia.
    rewrite Hans, Hv in Hfall. discriminate. }
  rewrite Hans, Hv in Hlast. split; [assumption|lia].
Qed.

End RetryMore.

Lemma X1_loop_returns_only_status_200_witness :
  status_code (reply 200) = 200
  /\ lt 0 (gets (snd (run_once [402; 200] 12)))
  /\ server (scripted [402; 200]) (gets (snd (run_once [402; 200] 12)) - 1)
     = Ok (reply 200).
Proof.
  apply (@X1_loop_returns_only_status_200 (scripted [402; 200]) sample_minter
           mint_url 12 default_base_backoff default_backoff_cap world0
           (snd (run_once [402; 200] 12)) (reply 200)).
  vm_compute. reflexivity.
Defined.


Lemma X3_unexpected_exception_is_not_retried_witness :
  fst (_mint_once_with_retry crashing_env sample_minter mint_url 12
         default_base_backoff default_backoff_cap world0) = Raise crash
  /\ gets (snd (_mint_once_with_retry crashing_env sample_minter mint_url 12
                  default_base_backoff default_backoff_cap world0)) = 2%nat.
Proof.
  apply (@X3_unexpected_exception_is_not_retried crashing_env sample_minter
           mint_url 12 default_base_backoff default_backoff_cap world0 _ _
           1%nat crash (surjective_pairing _)).
  - vm_compute. lia.
  - reflexivity.
  - reflexivity.
Defined.

(* ===================================================================== *)
(** ** Sleeps of a run *)
(* ===================================================================== *)

Lemma backoff_delay_below_cap (attempt : Z) (base cap : Q) (r : Z) :
  (0 < base)%Q -> (0 < cap)%Q -> 0 <= r < 1000 ->
  (0 < backoff_delay attempt base cap r
   /\ backoff_delay attempt base cap r < 1.4 * cap)%Q.
Proof.
  intros Hb Hc Hr.
  pose proof (capped_term_pos attempt Hb Hc) as Hpos.
  pose proof (jitter_range Hr) as [Hlo Hhi].
  assert (Hle : (py_min cap (base * Qpower 2 (attempt - 1)) <= cap)%Q).
  { destruct (py_min_cases cap (base * Qpower 2 (attempt - 1)))
      as [[-> _]|[-> H]]; [apply Qle_refl|now apply Qlt_le_weak]. }
  unfold backoff_delay.
  set (m := py_min cap (base * Qpower 2 (attempt - 1))) in *.
  set (j := (0.6 + 0.8 * inject_Z r / 1000)%Q) in *.
  split; nra.
Qed.

Lemma inject_Z_of_nat_succ (n : nat) :
  (inject_Z (Z.of_nat (S n)) == inject_Z (Z.of_nat n) + 1)%Q.
Proof. rewrite Nat2Z.inj_succ. unfold Z.succ. now rewrite inject_Z_plus. Qed.

Section Sleeps.
Variable env : Env.

Lemma retry_loop_sleeps (self : X402Minter) (url : string) (max_retries : Z)
    (base cap : Q) (attempt : Z) (w : World) (r : result Response) (w' : World) :
  (0 < base)%Q -> (0 < cap)%Q ->
  retry_loop env self url max_retries base cap attempt w = (r, w') ->
  exists evs,
    trace w' = (trace w ++ evs)%list
    /\ S (length (filter sleep_event evs)) = (gets w' - gets w)%nat
    /\ draws w' = (draws w + length (filter sleep_event evs))%nat
    /\ Forall (loop_event self url cap) evs
    /\ (total_sleep evs
        <= inject_Z (Z.of_nat (length (filter sleep_event evs))) * (1.4 * cap))%Q.
Proof.
  intros Hb Hc.
  funelim (retry_loop env self url max_retries base cap attempt w);
    match goal with
    | Hq : attempt_once _ _ _ _ = _ |- _ =>
        destruct (attempt_once_verdict env self url w) as (w1' & Hv & Hg & Hd & Ht);
        rewrite Hq in Hv
    end;
    injection Hv as _ <-.
  1-3: intros [= <- <-]; exists [EvGet url (timeout self)];
    (split; [exact Ht|]); (split; [cbn; lia|]); (split; [cbn; lia|]);
    (split; [constructor; [cbn; split; reflexivity|constructor]|]);
    change (0 <= 0 * (1.4 * backoff_cap))%Q; lra.
  - intros Hrun. apply H in Hrun; try assumption.
    destruct Hrun as (evs & Htr & Hcnt & Hdr & Hall & Htot).
    cbn [gets draws trace] in *.
    pose proof (@backoff_delay_below_cap (attempt + 1) base_backoff backoff_cap
                  (entropy env (draws w1) mod 1000) Hb Hc
                  (Z.mod_pos_bound _ 1000 eq_refl)) as [Hpos Hlt].
    eexists (EvGet url (timeout self) :: EvSleep _ :: evs).
    split; [rewrite Htr, Ht, <- !app_assoc; reflexivity|].
    cbn [filter sleep_event length total_sleep].
    split; [lia|]. split; [lia|].
    split; [constructor; [now split|constructor; [now split|exact Hall]]|].
    rewrite inject_Z_of_nat_succ. lra.
  - discriminate.
Qed.


End Sleeps.


(* ===================================================================== *)
(** ** More on the mint session *)
(* ===================================================================== *)

Section MintMore.
Variable env : Env.

Lemma mint_unit_cases (self : X402Minter) (url : string) (w : World) :
  mint_unit env self url w =
    match _mint_once_with_retry env self url default_max_retries
            default_base_backoff default_backoff_cap w with
    | (Ok resp, w1) =>
        (match resp_json resp with
         | Ok data => Ok data
         | Raise e =>
             if isinstance e "ValueError"
             then Ok (PDict [("raw_text", PStr (text resp))])
             else Raise e
         end, w1)
    | (Raise e, w1) => (Raise e, w1)
    end.
Proof.
  unfold mint_unit, bind, try_except, lift.
  destruct (_mint_once_with_retry env self url default_max_retries
              default_base_backoff default_backoff_cap w) as [[resp|e] w1].
  - destruct (resp_json resp) as [data|e]; [reflexivity|].
    destruct (isinstance e "ValueError"); reflexivity.
  - destruct (isinstance e "X402MintError"); reflexivity.
Qed.

Lemma mint_unit_requests (self : X402Minter) (url : string) (w w' : World)
    (r : result pyval) :
  mint_unit env self url w = (r, w') ->
  (gets w < gets w' <= gets w + 12)%nat.
Proof.
  rewrite mint_unit_cases.
  destruct (_mint_once_with_retry env self url default_max_retries
              default_base_backoff default_backoff_cap w) as [r0 w1] eqn:Hrun.
  destruct (mint_once_run _ _ _ _ _ _ _ Hrun) as (n & Hg & _ & Hb & _).
  unfold default_max_retries in Hb.
  destruct r0; intros [= _ <-]; lia.
Qed.

Lemma mint_loop_requests (self : X402Minter) (url : string) (units : list Z)
    (acc : list pyval) (w w' : World) (r : result (list pyval)) :
  mint_loop env self url units acc w = (r, w') ->
  (gets w <= gets w' <= gets w + 12 * length units)%nat
  /\ (units <> [] -> (gets w < gets w')%nat)
  /\ forall results,
       r = Ok results ->
       length results = (length acc + length units)%nat
       /\ (gets w + length units <= gets w')%nat.
Proof.
  revert acc w; induction units as [|u units IH]; intros acc w; cbn [mint_loop].
  - intros [= <- <-]. split; [cbn; lia|]. split; [congruence|].
    intros results [= <-]. cbn. lia.
  - unfold bind. destruct (mint_unit env self url w) as [[data|e] w1] eqn:Hu;
      pose proof (mint_unit_requests _ _ _ Hu) as Hreq.
    + intros Hrest. apply IH in Hrest. destruct Hrest as (Hb & _ & Hok).
      cbn [length]. split; [lia|]. split; [lia|].
      intros results Hr. destruct (Hok results Hr) as [Hlen Hmin].
      rewrite length_app in Hlen. cbn in Hlen. lia.
    + intros [= <- <-]. cbn [length]. split; [lia|]. split; [lia|].
      discriminate.
Qed.

(** X5.  For [amount >= 1], a call of [mint] sends at least one and at
    most [12 * amount] requests, whatever the server answers; when it
    returns, it returns exactly [amount] results and has sent at least
    [amount] requests. *)
Theorem X5_mint_request_budget_and_result_count (self : X402Minter) (url : string)
    (amount : Z) (w w' : World) (r : result (list pyval)) :
  1 <= amount ->
  mint env self url amount w = (r, w') ->
  (gets w < gets w')%nat
  /\ Z.of_nat (gets w' - gets w) <= 12 * amount
  /\ forall results,
       r = Ok results ->
       Z.of_nat (length results) = amount
       /\ amount <= Z.of_nat (gets w' - gets w).
Proof.
  intros Ha. unfold mint. destruct (Z.leb_spec amount 0) as [|_]; [lia|].
  intros Hrun. apply mint_loop_requests in Hrun.
  destruct Hrun as (Hb & Hpos & Hok).
  rewrite py_range_length in *.
  split; [apply Hpos; intros Hnil;
          apply (f_equal (@length Z)) in Hnil;
          rewrite py_range_length in Hnil; cbn in Hnil; lia|].
  split; [lia|].
  intros results Hr. destruct (Hok results Hr) as [Hlen Hmin]. cbn in Hlen. lia.
Qed.

(** X6.  For [amount <= 0], [mint] raises [ValueError("amount must be
    > 0")] before anything else happens: no clock reading, no request. *)
Theorem X6_mint_refuses_nonpositive_amount (self : X402Minter) (url : string)
    (amount : Z) (w : World) :
  amount <= 0 ->
  mint env self url amount w = (Raise (ValueError "amount must be > 0"), w).
Proof.
  intros Ha. unfold mint. destruct (Z.leb_spec amount 0); [reflexivity|lia].
Qed.

(** X7.  Once the request of a unit has returned a response, the unit
    cannot fail on a body that is not JSON: when [resp.json()] raises a
    [ValueError] the unit's result is [{"raw_text": resp.text}]; the
    decoded value is the result when decoding works; only an exception of
    another class leaves the unit. *)
Theorem X7_undecodable_body_is_kept_as_raw_text (self : X402Minter) (url : string)
    (w w1 : World) (resp : Response) :
  _mint_once_with_retry env self url default_max_retries default_base_backoff
    default_backoff_cap w = (Ok resp, w1) ->
  (forall data, resp_json resp = Ok data ->
     mint_unit env self url w = (Ok data, w1))
  /\ (forall e, resp_json resp = Raise e -> isinstance e "ValueError" = true ->
        mint_unit env self url w
          = (Ok (PDict [("raw_text", PStr (text resp))]), w1))
  /\ (forall e, resp_json resp = Raise e -> isinstance e "ValueError" = false ->
        mint_unit env self url w = (Raise e, w1)).
Proof.
  intros Hrun. rewrite mint_unit_cases, Hrun.
  split; [|split].
  - now intros data ->.
  - now intros e -> ->.
  - now intros e -> ->.
Qed.

End MintMore.

Lemma X5_mint_request_budget_and_result_count_witness :
  Z.of_nat (gets (snd (mint (scripted [402; 200; 200]) sample_minter mint_url 2
                         world0)) - gets world0) <= 12 * 2
  /\ exists results,
       fst (mint (scripted [402; 200; 200]) sample_minter mint_url 2 world0)
         = Ok results
       /\ Z.of_nat (length results) = 2.
Proof.
  destruct (@X5_mint_request_budget_and_result_count (scripted [402; 200; 200])
              sample_minter mint_url 2 world0 _ _ ltac:(lia)
              (surjective_pairing _)) as (_ & Hmax & Hok).
  split; [exact Hmax|].
  eexists. split; [vm_compute; reflexivity|].
  apply Hok. vm_compute. reflexivity.
Defined.

Lemma X6_mint_refuses_nonpositive_amount_witness :
  mint (scripted [200]) sample_minter mint_url 0 world0
    = (Raise (ValueError "amount must be > 0"), world0).
Proof.
  apply (@X6_mint_refuses_nonpositive_amount (scripted [200]) sample_minter
           mint_url 0 world0).
  lia.
Defined.

Lemma X7_undecodable_body_is_kept_as_raw_text_witness :
  fst (mint_unit html_env sample_minter mint_url world0)
    = Ok (PDict [("raw_text", PStr "<html>minted</html>")]).
Proof.
  pose (w1 := snd (_mint_once_with_retry html_env sample_minter mint_url
                     default_max_retries default_base_backoff
                     default_backoff_cap world0)).
  destruct (@X7_undecodable_body_is_kept_as_raw_text html_env sample_minter
              mint_url world0 w1 html_reply) as (_ & Hraw & _).
  - vm_compute. reflexivity.
  - rewrite (Hraw _ eq_refl eq_refl). reflexivity.
Defined.

(* ===================================================================== *)
(** ** More on the payment header *)
(* ===================================================================== *)

Lemma length_string_app (s1 s2 : string) :
  String.length (s1 ++ s2) = (String.length s1 + String.length s2)%nat.
Proof. induction s1 as [|c s1 IH]; cbn; [reflexivity|now rewrite IH]. Qed.

Lemma all_chars_app (p : ascii -> bool) (s1 s2 : string) :
  all_chars p (s1 ++ s2) = all_chars p s1 && all_chars p s2.
Proof.
  induction s1 as [|c s1 IH]; cbn; [reflexivity|].
  now rewrite IH, andb_assoc.
Qed.

Lemma hex_digit_is_hex_char (d : Z) :
  0 <= d < 16 -> hex_char (PyStr.hex_digit d) = true.
Proof.
  intros Hd.
  assert (Id : In d [0; 1; 2; 3; 4; 5; 6; 7; 8; 9; 10; 11; 12; 13; 14; 15])
    by (cbn; lia).
  cbn in Id.
  repeat (destruct Id as [<-|Id]; [reflexivity|]). contradiction.
Qed.

Lemma length_hex (n : nat) (z : Z) : String.length (PyStr.hex n z) = n.
Proof.
  revert z; induction n as [|n IH]; intros z; cbn [PyStr.hex]; [reflexivity|].
  rewrite length_string_app, IH. cbn. lia.
Qed.

Lemma hex_all_hex_chars (n : nat) (z : Z) : all_chars hex_char (PyStr.hex n z) = true.
Proof.
  revert z; induction n as [|n IH]; intros z; cbn [PyStr.hex]; [reflexivity|].
  rewrite all_chars_app, IH. cbn [all_chars andb].
  rewrite hex_digit_is_hex_char by (apply Z.mod_pos_bound; lia). reflexivity.
Qed.

(** X8.  For a valid body, [build_x_payment_header] reads the clock once,
    draws one nonce and signs once; the text it signs is the canonical
    JSON of the very authorization it puts in the envelope, and the
    signature in the envelope is the signer's with the prefix ["0x"].
    The call fails only if the signer fails, with the signer's error. *)
Theorem X8_header_signs_the_authorization_it_carries (lib : Lib) (env : Env)
    (self : X402Minter) (body : pyval) (w : World) :
  _validate_payment_body body = Ok tt ->
  exists a,
    let canonical := json_dumps lib (PDict a) in
    let w' := MkWorld (gets w) (S (draws w)) (S (ticks w))
                (trace w ++ [EvTokenHex 32; EvSign canonical]) in
    fst (build_authorization env self body w) = Ok (PDict a)
    /\ (forall signature,
          sign_message lib (account_key self) canonical = Ok signature ->
          build_x_payment_header lib env self body w =
            (Ok (b64encode lib (json_dumps lib
                   (PDict [("network", PStr (network self));
                           ("payload",
                            PDict [("authorization", PDict a);
                                   ("signature", PStr ("0x" ++ signature))]);
                           ("scheme", PStr (scheme self));
                           ("x402Version", PInt (x402_version self))]))),
             w'))
    /\ (forall e,
          sign_message lib (account_key self) canonical = Raise e ->
          build_x_payment_header lib env self body w = (Raise e, w')).
Proof.
  intros Hok. pose proof (validate_ok_inv _ Hok) as
    (d & e & rest & to & value & -> & Ha & Hto & Hv & _).
  pose proof (build_authorization_valid env self _ w Hok Ha Hto Hv) as Hb.
  exists (authorization_at env self to value w). cbv zeta.
  split; [now rewrite Hb|].
  split.
  - intros signature Hs. unfold build_x_payment_header, bind. rewrite Hb.
    unfold sign. rewrite Hs. cbn [gets draws ticks trace]. unfold ret.
    now rewrite <- app_assoc.
  - intros e0 Hs. unfold build_x_payment_header, bind. rewrite Hb.
    unfold sign. rewrite Hs. cbn [gets draws ticks trace].
    now rewrite <- app_assoc.
Qed.

Lemma X8_header_signs_the_authorization_it_carries_witness :
  exists header w',
    build_x_payment_header sample_lib (scripted []) sample_minter sample_body
      world0 = (Ok header, w')
    /\ filter header_event (trace w') = [EvTokenHex 32; EvSign "dict"].
Proof.
  destruct (@X8_header_signs_the_authorization_it_carries sample_lib
              (scripted []) sample_minter sample_body world0 eq_refl)
    as (a & _ & Hsigned & _).
  do 2 eexists. split; [apply (Hsigned "5197"); reflexivity|]. reflexivity.
Defined.

(** X9.  The authorization built from a valid body has exactly the six
    fields [from], [nonce], [to], [validAfter], [validBefore], [value];
    [from] is the account's address, [to] and [value] are the [payTo] and
    [maxAmountRequired] of the first [accepts] entry, unchanged, and the
    nonce is ["0x"] followed by 64 lower-case hexadecimal digits. *)
Theorem X9_authorization_fields (env : Env) (self : X402Minter) (body : pyval)
    (w : World) :
  _validate_payment_body body = Ok tt ->
  exists a to value digits,
    fst (build_authorization env self body w) = Ok (PDict a)
    /\ map fst a = ["from"; "nonce"; "to"; "validAfter"; "validBefore"; "value"]
    /\ dict_get "from" a = Some (PStr (account_address self))
    /\ accepts0 body "payTo" = Ok to
    /\ dict_get "to" a = Some to
    /\ accepts0 body "maxAmountRequired" = Ok value
    /\ dict_get "value" a = Some value
    /\ dict_get "nonce" a = Some (PStr ("0x" ++ digits))
    /\ String.length digits = 64%nat
    /\ all_chars hex_char digits = true.
Proof.
  intros Hok. pose proof (validate_ok_inv _ Hok) as
    (d & e & rest & to & value & -> & Ha & Hto & Hv & _).
  pose proof (build_authorization_valid env self _ w Hok Ha Hto Hv) as Hb.
  exists (authorization_at env self to value w), (PStr to), (PStr value),
         (PyStr.hex 64 (entropy env (draws w))).
  split; [now rewrite Hb|]. split; [reflexivity|]. split; [reflexivity|].
  split; [unfold accepts0, py_getitem, and_then; now rewrite Ha, Hto|].
  split; [reflexivity|].
  split; [unfold accepts0, py_getitem, and_then; now rewrite Ha, Hv|].
  split; [reflexivity|].
  split; [reflexivity|]. split; [apply length_hex|apply hex_all_hex_chars].
Qed.

Lemma X9_authorization_fields_witness :
  exists a digits,
    fst (build_authorization (scripted []) sample_minter sample_body world0)
      = Ok (PDict a)
    /\ dict_get "to" a = Some (PStr "0x0123456789abcdef0123456789abcdef01234567")
    /\ dict_get "nonce" a = Some (PStr ("0x" ++ digits))
    /\ String.length digits = 64%nat.
Proof.
  destruct (@X9_authorization_fields (scripted []) sample_minter sample_body
              world0 eq_refl)
    as (a & to & value & digits & Ha & _ & _ & Hpay & Hto & _ & _ & Hn & Hlen & _).
  exists a, digits. split; [exact Ha|]. split; [|split; [exact Hn|exact Hlen]].
  cbn in Hpay. injection Hpay as <-. exact Hto.
Defined.

(** X10.  [_validate_payment_body] has three outcomes.  It returns exactly
    on the well-formed bodies: a dict whose [accepts] is a non-empty list
    whose first entry is a dict with a [payTo] string that starts with
    ["0x"] and has 42 or 66 characters and a [maxAmountRequired] string.
    Every other body is refused, with a [ValueError], or with a
    [TypeError] and then the first entry of [accepts] is not a dict; no
    [KeyError] or [IndexError] leaves the function. *)
Theorem X10_validation_outcomes (body : pyval) :
  match _validate_payment_body body with
  | Ok _ => spec_valid_body body = true
  | Raise e =>
      spec_valid_body body = false
      /\ (exn_type e = "ValueError"
          \/ (exn_type e = "TypeError"
              /\ exists entry,
                   first_entry body = Some entry /\ is_mapping entry = false))
  end.
Proof.
  destruct (_validate_payment_body body) as [[]|e] eqn:Hv.
  - now apply validate_ok_iff.
  - assert (Hinv : spec_valid_body body = false).
    { destruct (spec_valid_body body) eqn:Hs; [|reflexivity].
      apply validate_ok_iff in Hs. congruence. }
    split; [exact Hinv|].
    destruct (first_entry body) as [entry|] eqn:Hfe.
    2:{ left. destruct (validate_invalid_mapping_entry body Hinv) as [msg Hm].
        - intros entry He. congruence.
        - rewrite Hm in Hv. now injection Hv as <-. }
    destruct (is_mapping entry) eqn:Hmap.
    { left. destruct (validate_invalid_mapping_entry body Hinv) as [msg Hm].
      - intros entry' He. congruence.
      - rewrite Hm in Hv. now injection Hv as <-. }
    destruct body as [| | | | | |d]; try discriminate. cbn in Hfe, Hv.
    destruct (dict_get "accepts" d) as [[| | | | |[|entry' rest]|]|];
      try discriminate.
    injection Hfe as ->.
    destruct entry as [| |z|q|s|l|e']; try discriminate;
      try (right; split; [now injection Hv as <-|now exists PNone]);
      try (right; split; [now injection Hv as <-|eexists; split; reflexivity]).
    + cbn in Hv. destruct (PyStr.contains s "payTo"); cbn in Hv;
        [|left; now injection Hv as <-].
      destruct (PyStr.contains s "maxAmountRequired"); cbn in Hv;
        [|left; now injection Hv as <-].
      right. split; [now injection Hv as <-|eexists; split; reflexivity].
    + cbn in Hv. destruct (existsb _ l); cbn in Hv;
        [|left; now injection Hv as <-].
      destruct (existsb _ l); cbn in Hv; [|left; now injection Hv as <-].
      right. split; [now injection Hv as <-|eexists; split; reflexivity].
Qed.

(* ===================================================================== *)
(** ** More on account records *)
(* ===================================================================== *)

Section AccountMore.
Variable lib : Lib.
Variable env : Env.

(** X11.  When the key cannot be turned into an account, the account's
    record is the failure record of the constructor's exception, and
    nothing has been done for the account: no clock reading, no request. *)
Theorem X11_unusable_key_costs_nothing (private_key url : string) (amount : Z)
    (network scheme : string) (x402_version : Z) (w : World) (e : exn) :
  from_key lib private_key = Raise e ->
  run_minter_for_account lib env private_key url amount network scheme
      x402_version w
    = (Ok (failure_record (PyStr.last_chars 6 private_key) e), w).
Proof.
  intros Hkey. rewrite run_minter_for_account_cases.
  unfold account_session, __init__, bind, lift. now rewrite Hkey.
Qed.

Lemma account_session_ok_results (suffix private_key url : string) (amount : Z)
    (network scheme : string) (x402_version : Z) (w w' : World) (record : pyval) :
  account_session lib env suffix private_key url amount network scheme
      x402_version w = (Ok record, w') ->
  exists minter w0 results w1 elapsed,
    mint env minter url amount w0 = (Ok results, w1)
    /\ gets w0 = gets w /\ gets w' = gets w1
    /\ record = PDict [("private_key_suffix", PStr suffix);
                       ("ok", PBool true);
                       ("elapsed_sec", PFloat elapsed);
                       ("results", PList results)].
Proof.
  unfold account_session, __init__, bind, lift, time_time, ret.
  destruct (from_key lib private_key) as [address|e]; [|discriminate].
  match goal with |- context [mint env ?m url amount ?w0] =>
    destruct (mint env m url amount w0) as [[results|e] w1] eqn:Hm;
    [|discriminate];
    intros [= <- <-]; exists m, w0, results, w1
  end.
  eexists. split; [exact Hm|]. now cbn.
Qed.

(** X12.  [run_minter_for_account] always returns a record, of one of two
    shapes.  A record with [ok] true carries [elapsed_sec] and [results],
    and then [amount >= 1], there are exactly [amount] results and at
    least [amount] requests were sent; otherwise the record is the failure
    record of some exception, with [ok] false, [error] and [error_type]. *)
Theorem X12_account_record_shapes (private_key url : string) (amount : Z)
    (network scheme : string) (x402_version : Z) (w : World) :
  exists record w',
    run_minter_for_account lib env private_key url amount network scheme
        x402_version w = (Ok record, w')
    /\ ((exists elapsed results,
           record = PDict [("private_key_suffix",
                            PStr (PyStr.last_chars 6 private_key));
                           ("ok", PBool true);
                           ("elapsed_sec", PFloat elapsed);
                           ("results", PList results)]
           /\ 1 <= amount
           /\ Z.of_nat (length results) = amount
           /\ amount <= Z.of_nat (gets w' - gets w))
        \/ (exists e,
              record = failure_record (PyStr.last_chars 6 private_key) e)).
Proof.
  rewrite run_minter_for_account_cases.
  destruct (account_session lib env (PyStr.last_chars 6 private_key) private_key
              url amount network scheme x402_version w)
    as [[record|e] w'] eqn:Hs.
  - exists record, w'. split; [reflexivity|]. left.
    apply account_session_ok_results in Hs.
    destruct Hs as (minter & w0 & results & w1 & elapsed & Hm & Hg0 & Hg1 & ->).
    exists elapsed, results. split; [reflexivity|].
    unfold mint in Hm. destruct (Z.leb_spec amount 0) as [|Hpos]; [discriminate|].
    apply mint_loop_requests in Hm. destruct Hm as (_ & _ & Hok).
    destruct (Hok results eq_refl) as [Hlen Hmin].
    rewrite py_range_length in *. cbn in Hlen.
    split; [lia|]. split; lia.
  - exists (failure_record (PyStr.last_chars 6 private_key) e), w'.
    split; [reflexivity|]. right. now exists e.
Qed.

End AccountMore.

Lemma X11_unusable_key_costs_nothing_witness :
  run_minter_for_account
    (MkLib (fun _ => Raise (ValueError "The private key must be exactly 32 bytes long"))
       (sign_message sample_lib) (json_dumps sample_lib) (b64encode sample_lib))
    (scripted [200]) "0xshort" mint_url 1 "base" "exact" 1 world0
  = (Ok (PDict [("private_key_suffix", PStr "xshort");
                ("ok", PBool false);
                ("error", PStr "The private key must be exactly 32 bytes long");
                ("error_type", PStr "ValueError")]), world0).
Proof.
  apply (@X11_unusable_key_costs_nothing
           (MkLib (fun _ => Raise (ValueError "The private key must be exactly 32 bytes long"))
              (sign_message sample_lib) (json_dumps sample_lib) (b64encode sample_lib))
           (scripted [200]) "0xshort" mint_url 1 "base" "exact" 1 world0
           (ValueError "The private key must be exactly 32 bytes long")).
  reflexivity.
Defined.

(* ===================================================================== *)
(** ** More on the batch *)
(* ===================================================================== *)

Lemma get_ok_of_record (r : pyval) :
  is_account_record r = true -> exists ok, get_ok r = Ok ok.
Proof.
  destruct r as [| | | | | |d]; try discriminate.
  unfold is_account_record, get_ok, py_get.
  destruct (dict_get "ok" d) as [[|b| | | | |]|]; try discriminate.
  intros _. cbn. now exists b.
Qed.

Lemma failed_line_of_record (r : pyval) :
  is_account_record r = true -> exists line, failed_line r = Ok line.
Proof.
  destruct r as [| | | | | |d]; try discriminate.
  unfold is_account_record, failed_line, py_getitem, py_get.
  destruct (dict_get "ok" d) as [[|b| | | | |]|]; try discriminate.
  destruct (dict_get "private_key_suffix" d) as [[| | | |s| |]|]; try discriminate.
  intros _. cbn [and_then]. now eexists.
Qed.

(** The summaries of a list of records. *)
Lemma summaries_of_records (rs : list pyval) :
  Forall (fun r => is_account_record r = true) rs ->
  exists success failed lines,
    select_by_ok true rs = Ok success
    /\ select_by_ok false rs = Ok failed
    /\ ok_count rs = Ok (Z.of_nat (length success))
    /\ (length success + length failed = length rs)%nat
    /\ Forall (fun r => is_account_record r = true) failed
    /\ failed_lines failed = Ok lines
    /\ length lines = length failed.
Proof.
  induction 1 as [|r rs Hr _ IH].
  - exists [], [], []. now cbn.
  - destruct IH as (success & failed & lines & Hs & Hf & Hc & Hlen & Hall & Hl & Hll).
    destruct (get_ok_of_record _ Hr) as [ok Hok].
    destruct (failed_line_of_record _ Hr) as [line Hline].
    destruct ok.
    + exists (r :: success), failed, lines.
      cbn [select_by_ok ok_count]. rewrite Hok, Hs, Hf, Hc.
      cbn [and_then Bool.eqb length].
      repeat split; try assumption; [f_equal; lia | lia].
    + exists success, (r :: failed), (line :: lines).
      cbn [select_by_ok ok_count failed_lines]. rewrite Hok, Hs, Hf, Hc, Hline, Hl.
      cbn [and_then Bool.eqb length].
      repeat split; try assumption; [lia | now constructor | lia].
Qed.

Section BatchMore.
Variable lib : Lib.
Variable ThreadPoolExecutor : Z -> result Pool.
Variable envs : nat -> Env.
Variables (url : string) (amount : Z) (network scheme : string) (x402_version : Z).

Local Abbreviation record_at :=
  (account_record lib envs url amount network scheme x402_version).
Local Abbreviation records_from :=
  (account_records lib envs url amount network scheme x402_version).
Local Abbreviation submitted :=
  (fun position private_keys =>
     map fst (submit_all lib envs position private_keys url amount network
                scheme x402_version)).

Lemma account_record_is_record (position : nat) (private_key : string) :
  is_account_record (record_at position private_key) = true.
Proof.
  unfold account_record. rewrite run_minter_for_account_cases.
  destruct (account_session lib (envs position) (PyStr.last_chars 6 private_key)
              private_key url amount network scheme x402_version world0)
    as [[record|e] w'] eqn:Hs; [|reflexivity].
  apply account_session_ok_inv in Hs. destruct Hs as (elapsed & results & ->).
  reflexivity.
Qed.

Lemma account_records_are_records (position : nat) (private_keys : list string) :
  Forall (fun r => is_account_record r = true) (records_from position private_keys).
Proof.
  revert position; induction private_keys as [|pk rest IH]; intros position;
    cbn; constructor; [apply account_record_is_record|apply IH].
Qed.

(** What the batch returns, given a pool that yields each future once. *)
Lemma batch_results (max_workers : Z) (pool : Pool) (private_keys : list string) :
  ThreadPoolExecutor max_workers = Ok pool ->
  (forall futures, Permutation (as_completed pool futures) futures) ->
  run_parallel_mints lib ThreadPoolExecutor envs private_keys url amount
      max_workers network scheme x402_version
    = Ok (map future_record (as_completed pool (submitted 0%nat private_keys)))
  /\ Permutation (map future_record (as_completed pool (submitted 0%nat private_keys)))
       (records_from 0%nat private_keys).
Proof.
  intros Hpool Hperm. unfold run_parallel_mints. rewrite Hpool. cbn [and_then].
  destruct (submitted_futures_done lib envs url amount network scheme x402_version
              0 private_keys) as [Hall Hrec].
  assert (Hall' : Forall (fun fut => exists record, fut_result fut = Ok record)
                    (as_completed pool (submitted 0%nat private_keys))).
  { rewrite Forall_forall in *. intros fut Hin. apply Hall.
    now apply (Permutation_in _ (Hperm _)). }
  rewrite (collect_done _ [] Hall'). cbn [app]. split; [reflexivity|].
  rewrite <- Hrec. apply Permutation_map, Hperm.
Qed.



(** X13.  Given a pool that yields each submitted future once, the
    summaries computed from the batch's results cannot raise: every result
    is a dict with [ok] and [private_key_suffix], so [r.get("ok")] and
    [f["private_key_suffix"]] succeed; [ok_count] is the size of the
    success list, the success and failed lists together have one entry
    per private key, and one line is logged per failed account. *)
Theorem X13_summaries_add_up_to_the_accounts (max_workers : Z) (pool : Pool)
    (private_keys : list string) :
  ThreadPoolExecutor max_workers = Ok pool ->
  (forall futures, Permutation (as_completed pool futures) futures) ->
  exists results n_ok n_failed lines,
    run_parallel_mints lib ThreadPoolExecutor envs private_keys url amount
      max_workers network scheme x402_version = Ok results
    /\ Forall (fun r => is_account_record r = true) results
    /\ ok_count results = Ok (Z.of_nat n_ok)
    /\ final_summary results = Ok (n_ok, n_failed, lines)
    /\ (n_ok + n_failed = length private_keys)%nat
    /\ length lines = n_failed.
Proof.
  intros Hpool Hperm.
  destruct (@batch_results max_workers pool private_keys Hpool Hperm) as [Hrun Hres].
  set (results := map future_record
                    (as_completed pool (submitted 0%nat private_keys))) in *.
  assert (Hall : Forall (fun r => is_account_record r = true) results).
  { rewrite Forall_forall. intros r Hin.
    apply (Permutation_in _ Hres) in Hin.
    pose proof (account_records_are_records 0 private_keys) as Hrec.
    rewrite Forall_forall in Hrec. now apply Hrec. }
  destruct (summaries_of_records Hall)
    as (success & failed & lines & Hs & Hf & Hc & Hlen & _ & Hl & Hll).
  exists results, (length success), (length failed), lines.
  split; [exact Hrun|]. split; [exact Hall|]. split; [exact Hc|].
  split; [unfold final_summary; rewrite Hs, Hf; cbn [and_then]; now rewrite Hl|].
  split; [|exact Hll].
  rewrite Hlen, (Permutation_length Hres).
  apply (account_records_length lib envs url amount network scheme x402_version).
Qed.


End BatchMore.

Lemma X13_summaries_add_up_to_the_accounts_witness :
  exists results lines,
    run_parallel_mints sample_lib sample_executor sample_envs
      ["0xkey001"; "0xkey002"] mint_url 1 10 "base" "exact" 1 = Ok results
    /\ ok_count results = Ok 1
    /\ final_summary results = Ok (1%nat, 1%nat, lines).
Proof.
  destruct (@X13_summaries_add_up_to_the_accounts sample_lib sample_executor
              sample_envs mint_url 1 "base" "exact" 1 10 reversing_pool
              ["0xkey001"; "0xkey002"] eq_refl
              (fun futures => Permutation_sym (Permutation_rev futures)))
    as (results & n_ok & n_failed & lines & Hrun & _ & Hc & Hf & _ & _).
  exists results, lines. split; [exact Hrun|].
  assert (Hn : n_ok = 1%nat /\ n_failed = 1%nat).
  { assert (Hres : results = match run_parallel_mints sample_lib sample_executor
                     sample_envs ["0xkey001"; "0xkey002"] mint_url 1 10 "base"
                     "exact" 1 with Ok rs => rs | Raise _ => [] end)
      by now rewrite Hrun.
    rewrite Hres in Hf. vm_compute in Hf. injection Hf as <- <- _. now split. }
  destruct Hn as [-> ->]. split; [exact Hc|exact Hf].
Defined.


(* ===================================================================== *)
(** ** Whole sessions on two kinds of server *)
(* ===================================================================== *)

Section WholeSessions.
Variable env : Env.

Lemma first_attempt_success (self : X402Minter) (url : string) (w : World)
    (resp : Response) :
  server env (gets w) = Ok resp ->
  status_code resp = 200 ->
  exists w1,
    _mint_once_with_retry env self url default_max_retries default_base_backoff
      default_backoff_cap w = (Ok resp, w1)
    /\ gets w1 = S (gets w)
    /\ draws w1 = draws w
    /\ filter sleep_event (trace w1) = filter sleep_event (trace w).
Proof.
  intros Hans Hcode.
  destruct (_mint_once_with_retry env self url default_max_retries
              default_base_backoff default_backoff_cap w) as [r w1] eqn:Hrun.
  destruct (mint_once_run _ _ _ _ _ _ _ Hrun) as (n & Hg & Hfall & _ & Hlast & _).
  assert (n = O) as ->.
  { destruct n as [|n]; [reflexivity|].
    specialize (Hfall O ltac:(lia)). rewrite Nat.add_0_r, Hans in Hfall.
    rewrite (verdict_success _ Hcode) in Hfall. discriminate. }
  rewrite Nat.add_0_r, Hans, (verdict_success _ Hcode) in Hlast. subst r.
  unfold _mint_once_with_retry, bind, time_time in Hrun.
  apply retry_loop_sleeps in Hrun; [|reflexivity|reflexivity].
  cbn [gets draws trace] in Hrun.
  destruct Hrun as (evs & Htr & Hcnt & Hdr & _).
  assert (Hnil : filter sleep_event evs = []).
  { destruct (filter sleep_event evs); [reflexivity|cbn in Hcnt; lia]. }
  exists w1. split; [reflexivity|]. split; [lia|].
  split; [rewrite Hdr, Hnil; cbn; lia|].
  now rewrite Htr, filter_app, Hnil, app_nil_r.
Qed.

Lemma mint_loop_all_accepted (self : X402Minter) (url : string) (units : list Z)
    (acc : list pyval) (w : World) :
  (forall k, (gets w <= k < gets w + length units)%nat ->
     exists resp,
       server env k = Ok resp /\ status_code resp = 200
       /\ forall e, resp_json resp = Raise e -> isinstance e "ValueError" = true) ->
  exists results w',
    mint_loop env self url units acc w = (Ok results, w')
    /\ length results = (length acc + length units)%nat
    /\ gets w' = (gets w + length units)%nat
    /\ draws w' = draws w
    /\ filter sleep_event (trace w') = filter sleep_event (trace w).
Proof.
  revert acc w; induction units as [|u units IH]; intros acc w Hall.
  - exists acc, w. cbn. repeat split; lia.
  - destruct (Hall (gets w) ltac:(cbn; lia)) as (resp & Hans & Hcode & Hjson).
    destruct (first_attempt_success self url w Hans Hcode)
      as (w1 & Hrun & Hg & Hd & Hs).
    cbn [mint_loop]. unfold bind. rewrite mint_unit_cases, Hrun.
    set (data := match resp_json resp with
                 | Ok d => Ok d
                 | Raise e => if isinstance e "ValueError"
                              then Ok (PDict [("raw_text", PStr (text resp))])
                              else Raise e
                 end).
    assert (Hdata : exists d, data = Ok d).
    { subst data. destruct (resp_json resp) as [d|e]; [now exists d|].
      rewrite (Hjson e eq_refl). now eexists. }
    destruct Hdata as [d ->].
    destruct (IH (acc ++ [d])%list w1) as (results & w' & Hl & Hlen & Hg' & Hd' & Hs').
    { intros k Hk. apply Hall. cbn [length]. lia. }
    exists results, w'. split; [exact Hl|].
    rewrite length_app in Hlen. cbn [length] in *.
    split; [lia|]. split; [lia|]. split; congruence.
Qed.

(** X15.  When each of the next [amount >= 1] requests is answered at once
    with status 200 (and a body that is JSON or fails to decode with a
    [ValueError]), [mint] returns [amount] results after exactly [amount]
    requests, without any sleep and without touching the random source. *)
Theorem X15_accepted_at_once_costs_one_request_per_unit (self : X402Minter)
    (url : string) (amount : Z) (w : World) :
  1 <= amount ->
  (forall k, (gets w <= k < gets w + Z.to_nat amount)%nat ->
     exists resp,
       server env k = Ok resp /\ status_code resp = 200
       /\ forall e, resp_json resp = Raise e -> isinstance e "ValueError" = true) ->
  exists results w',
    mint env self url amount w = (Ok results, w')
    /\ Z.of_nat (length results) = amount
    /\ gets w' = (gets w + Z.to_nat amount)%nat
    /\ draws w' = draws w
    /\ filter sleep_event (trace w') = filter sleep_event (trace w).
Proof.
  intros Ha Hall. unfold mint. destruct (Z.leb_spec amount 0) as [|_]; [lia|].
  destruct (mint_loop_all_accepted self url (py_range 1 (amount + 1)) [] w)
    as (results & w' & Hl & Hlen & Hg & Hd & Hs).
  { rewrite py_range_length. intros k Hk. apply Hall. lia. }
  rewrite py_range_length in *. cbn [length] in Hlen.
  exists results, w'. split; [exact Hl|]. split; [lia|].
  split; [rewrite Hg; f_equal; lia|]. split; assumption.
Qed.

(** X16.  With the default budget of 12 attempts, an account whose key is
    usable and whose first 12 requests all fall through (402, a transient
    or unlisted status, a transport error) fails on its first unit: its
    record has [ok] false, [error] ["Mint failed after 12 attempts"] and
    [error_type] ["X402MintError"], and exactly 12 requests were sent,
    however many units were asked for. *)
Theorem X16_unpaid_account_fails_after_twelve_requests (lib : Lib)
    (private_key url : string) (amount : Z) (network scheme : string)
    (x402_version : Z) (w : World) (address : string) :
  1 <= amount ->
  from_key lib private_key = Ok address ->
  (forall i, (i < 12)%nat -> verdict (server env (gets w + i)) = Fallthrough) ->
  exists w',
    run_minter_for_account lib env private_key url amount network scheme
        x402_version w
      = (Ok (PDict [("private_key_suffix", PStr (PyStr.last_chars 6 private_key));
                    ("ok", PBool false);
                    ("error", PStr "Mint failed after 12 attempts");
                    ("error_type", PStr "X402MintError")]), w')
    /\ gets w' = (gets w + 12)%nat.
Proof.
  intros Ha Hkey Hall.
  rewrite run_minter_for_account_cases.
  unfold account_session, __init__, bind, lift. rewrite Hkey.
  unfold ret, time_time. cbv beta iota.
  set (minter := MkMinter private_key address (PyStr.last_chars 4 address) 10
                   network scheme x402_version).
  set (w0 := MkWorld (gets w) (draws w) (S (ticks w)) (trace w)).
  destruct (_mint_once_with_retry env minter url default_max_retries
              default_base_backoff default_backoff_cap w0) as [r w1] eqn:Hrun.
  destruct (mint_once_run _ _ _ _ _ _ _ Hrun) as (n & Hg & _ & Hb & Hlast & _).
  unfold default_max_retries in *. unfold w0 in Hg, Hlast. cbn [gets] in Hg, Hlast.
  rewrite (Hall n ltac:(lia)) in Hlast. destruct Hlast as [-> Hle].
  assert (Hmint : mint env minter url amount w0 = (Raise (exhausted 12), w1)).
  { unfold mint. destruct (Z.leb_spec amount 0) as [|_]; [lia|].
    pose proof (py_range_length 1 (amount + 1)) as Hlen.
    destruct (py_range 1 (amount + 1)) as [|u us]; [cbn in Hlen; lia|].
    cbn [mint_loop]. unfold bind. now erewrite mint_unit_raise by exact Hrun. }
  rewrite Hmint. exists w1. split; [reflexivity|lia].
Qed.

End WholeSessions.

Lemma X15_accepted_at_once_costs_one_request_per_unit_witness :
  exists results w',
    mint (scripted [200; 200]) sample_minter mint_url 2 world0 = (Ok results, w')
    /\ Z.of_nat (length results) = 2
    /\ gets w' = 2%nat
    /\ draws w' = 0%nat.
Proof.
  destruct (@X15_accepted_at_once_costs_one_request_per_unit (scripted [200; 200])
              sample_minter mint_url 2 world0 ltac:(lia))
    as (results & w' & Hm & Hlen & Hg & Hd & _).
  - intros [|[|k]] Hk; [| |cbn in Hk; lia];
      exists (reply 200); (split; [reflexivity|]); (split; [reflexivity|]);
      discriminate.
  - exists results, w'. repeat split; assumption.
Defined.

Lemma X16_unpaid_account_fails_after_twelve_requests_witness :
  exists w',
    run_minter_for_account sample_lib (scripted []) "0xkey001" mint_url 3
      "base" "exact" 1 world0
    = (Ok (PDict [("private_key_suffix", PStr "key001");
                  ("ok", PBool false);
                  ("error", PStr "Mint failed after 12 attempts");
                  ("error_type", PStr "X402MintError")]), w')
    /\ gets w' = 12%nat.
Proof.
  apply (@X16_unpaid_account_fails_after_twelve_requests (scripted [])
           sample_lib "0xkey001" mint_url 3 "base" "exact" 1 world0
           "0xA11CE0000000000000000000000000000000y001").
  - lia.
  - reflexivity.
  - intros i Hi. destruct i; reflexivity.
Defined.
